(** * Infrastructure usage panel (studio/components/interfaces/BillingV2/Usage/Infrastructure.tsx)

    A shallow embedding of one render pass of the [Infrastructure] component:
    the values it derives from its props and from the results of its data
    hooks, and the element tree it returns.  JavaScript values, numbers and
    exceptions are modelled as far as the component uses them. *)

From Stdlib Require Import ZArith QArith Qcanon String Ascii List Bool Lia.
From stdpp Require Import base option list numbers strings gmap.

Open Scope string_scope.
Open Scope Z_scope.

(** ** JavaScript values *)

Module JS.

(** A Number: the component only compares numbers and never computes with
    them, so a finite double is represented by the rational it denotes
    (+0 and -0 are identified). *)
Inductive number : Type :=
  | NaN
  | NegInfinity
  | Finite (q : Qc)
  | PosInfinity.

Definition of_Z (z : Z) : number := Finite (Qc_of_Z z).

(** The primitive values a data point or an API record can hold. *)
Inductive value : Type :=
  | VUndefined
  | VNull
  | VBoolean (b : bool)
  | VNumber (n : number)
  | VString (s : string).

(** [a < b] on Numbers: false as soon as one side is NaN. *)
Definition lt (a b : number) : bool :=
  match a, b with
  | NaN, _ | _, NaN => false
  | NegInfinity, NegInfinity => false
  | NegInfinity, _ => true
  | _, NegInfinity => false
  | PosInfinity, _ => false
  | _, PosInfinity => true
  | Finite x, Finite y => match (x ?= y)%Qc with Lt => true | _ => false end
  end.

(** [a <= b] on Numbers: [b < a] is false, and neither side is NaN. *)
Definition le (a b : number) : bool :=
  match a, b with
  | NaN, _ | _, NaN => false
  | _, _ => negb (lt b a)
  end.

(** [a === b] on Numbers: NaN is different from everything, itself included. *)
Definition number_strict_eq (a b : number) : bool :=
  match a, b with
  | NaN, _ | _, NaN => false
  | NegInfinity, NegInfinity => true
  | PosInfinity, PosInfinity => true
  | Finite x, Finite y => match (x ?= y)%Qc with Eq => true | _ => false end
  | _, _ => false
  end.

(** [a === b] on a property that may be undefined ([None]). *)
Definition strict_eq (a b : option number) : bool :=
  match a, b with
  | None, None => true
  | Some x, Some y => number_strict_eq x y
  | _, _ => false
  end.

(** [a ?? b]: the right operand only when the left one is null or undefined. *)
Definition nullish_coalesce (a b : value) : value :=
  match a with
  | VUndefined | VNull => b
  | _ => a
  end.

(** The names every object literal inherits from [Object.prototype]:
    reading one of them from an object that does not define it gives a
    function (or the prototype itself), not [undefined]. *)
Definition object_prototype_keys : list string :=
  [ "constructor"; "hasOwnProperty"; "isPrototypeOf"; "propertyIsEnumerable";
    "toLocaleString"; "toString"; "valueOf"; "__proto__";
    "__defineGetter__"; "__defineSetter__"; "__lookupGetter__";
    "__lookupSetter__" ].

(** What [obj[k]] evaluates to, for an object literal with entries of type [A]. *)
Inductive property (A : Type) : Type :=
  | Own (a : A)
  | Inherited
  | Missing.
Arguments Own {A} a.
Arguments Inherited {A}.
Arguments Missing {A}.

Definition get {A : Type} (obj : gmap string A) (k : string) : property A :=
  match obj !! k with
  | Some a => Own a
  | None => if bool_decide (k ∈ object_prototype_keys) then Inherited else Missing
  end.

(** Exceptions: an expression either completes with a value or throws. *)
Inductive error : Type :=
  | TypeError (msg : string).

Inductive completion (A : Type) : Type :=
  | Normal (a : A)
  | Throw (e : error).
Arguments Normal {A} a.
Arguments Throw {A} e.

Definition bind {A B : Type} (c : completion A) (k : A -> completion B) : completion B :=
  match c with
  | Normal a => k a
  | Throw e => Throw e
  end.

(** [Array.prototype.map] with a callback that may throw: the first
    exception aborts the traversal. *)
Fixpoint map_throwing {A B : Type} (f : A -> completion B) (l : list A) : completion (list B) :=
  match l with
  | [] => Normal []
  | a :: rest =>
      bind (f a) (fun b => bind (map_throwing f rest) (fun bs => Normal (b :: bs)))
  end.

(** [arr.slice(-1)]: the array of the last element, empty for an empty array. *)
Definition slice_last {A : Type} (arr : list A) : list A :=
  drop (length arr - 1)%nat arr.

(** [s.split(sep)] for a one-character separator. *)
Fixpoint split (sep : ascii) (s : string) : list string :=
  match s with
  | EmptyString => [EmptyString]
  | String c rest =>
      if Ascii.eqb c sep then EmptyString :: split sep rest
      else match split sep rest with
           | piece :: pieces => String c piece :: pieces
           | [] => [String c EmptyString]
           end
  end.

End JS.

(** ** The host: built-ins whose result depends on text parsing or on the clock *)

Class Host : Type := {
  (** [Number(s)] for a string [s] (StringToNumber). *)
  StringToNumber : string -> JS.number;
  (** [dayjs(s).valueOf()] in milliseconds since the epoch; [None] for an
      invalid date. *)
  dayjs_parse : string -> option Z;
  (** [dayjs().valueOf()]: the instant of the render pass; all the reads of
      the clock in one pass are taken to give the same millisecond. *)
  Date_now : Z;
  (** [LocalTZA(t, isUTC)] of ECMAScript: the offset of local time from UTC
      in milliseconds, in effect at the instant [t] when [isUTC] is true,
      and at the local time value [t] when it is false (a local time that
      occurs twice or not at all around a clock change is read with the
      offset in effect before the change). *)
  LocalTZA : Z -> bool -> Z;
}.

Section Builtins.
Context `{Host}.

(** [Number(v)] (ToNumber). *)
Definition Number (v : JS.value) : JS.number :=
  match v with
  | JS.VUndefined => JS.NaN
  | JS.VNull => JS.of_Z 0
  | JS.VBoolean b => if b then JS.of_Z 1 else JS.of_Z 0
  | JS.VNumber n => n
  | JS.VString s => StringToNumber s
  end.

(** The loop of [Math.max]: a NaN argument ends it with NaN, a larger
    argument replaces the running maximum. *)
Fixpoint max_loop (highest : JS.number) (coerced : list JS.number) : JS.number :=
  match coerced with
  | [] => highest
  | JS.NaN :: _ => JS.NaN
  | n :: rest => max_loop (if JS.lt highest n then n else highest) rest
  end.

(** [Math.max(...args)]: every argument goes through ToNumber, the running
    maximum starts at -Infinity. *)
Definition Math_max (args : list JS.value) : JS.number :=
  max_loop JS.NegInfinity (map Number args).

End Builtins.

(** ** dayjs *)

Module Dayjs.
Section Dayjs.
Context `{Host}.

Definition MILLISECONDS_A_HOUR : Z := 3600000.
Definition MILLISECONDS_A_DAY : Z := 86400000.

(** A dayjs object is represented by its [valueOf()]; [None] stands for an
    invalid date, whose value is NaN. *)
Definition t : Type := option Z.

(** [dayjs(date)]: the current instant when [date] is undefined. *)
Definition dayjs (date : option string) : t :=
  match date with
  | None => Some Date_now
  | Some s => dayjs_parse s
  end.

(** [this.diff(that, 'hours')]: the difference in hours, truncated towards
    zero ([absFloor]); NaN when one of the dates is invalid.  The quotient of
    the two doubles is the exact one up to rounding that cannot reach the
    next whole hour for differences below 2^32 hours. *)
Definition diff_hours (this that : t) : JS.number :=
  match this, that with
  | Some a, Some b => JS.of_Z (Z.quot (a - b) MILLISECONDS_A_HOUR)
  | _, _ => JS.NaN
  end.

(** [LocalTime(t)] and [UTC(t)] of ECMAScript. *)
Definition LocalTime (instant : Z) : Z := instant + LocalTZA instant true.
Definition UTC (local : Z) : Z := local - LocalTZA local false.

(** [this.startOf('day')], which is [setHours(0, 0, 0, 0)] on a copy of the
    date: the local time of [this] with its time of day set to 0
    ([MakeDate(Day(LocalTime(t)), 0)]), read back as an instant. *)
Definition startOf_day (this : t) : t :=
  match this with
  | Some a => Some (UTC (LocalTime a - LocalTime a mod MILLISECONDS_A_DAY))
  | None => None
  end.

(** [this.isAfter(that)]: [that < this] on the two values. *)
Definition isAfter (this that : t) : bool :=
  match this, that with
  | Some a, Some b => b <? a
  | _, _ => false
  end.

End Dayjs.
End Dayjs.

(** ** Data consumed by the component *)

(** A data point of a monitoring series: an object whose keys are
    [period_start] and the attribute of the series. *)
Abbreviation DataPoint := (gmap string JS.value).

(** [x.k] on a data point: undefined for a key it does not have. *)
Definition field (x : DataPoint) (k : string) : JS.value :=
  default JS.VUndefined (x !! k).

Record Plan : Type := { plan_id : string }.

Record Subscription : Type := { plan : option Plan }.

Record VariantMeta : Type := {
  baseline_disk_io_mbs : option JS.number;
  max_disk_io_mbs : option JS.number;
  cpu_cores : option JS.number;
  cpu_dedicated : option bool;
  memory_gb : option JS.number;
}.

Record Variant : Type := {
  variant_name : string;
  meta : option VariantMeta;
}.

Record Addon : Type := {
  addon_type : string;
  variant : option Variant;
}.

Record ProjectAddons : Type := { selected_addons : option (list Addon) }.

Record ResourceWarning : Type := {
  project : string;
  cpu_exhaustion : option string;
  memory_and_swap_exhaustion : option string;
}.

Record InfraMonitoringVariables : Type := {
  var_projectRef : string;
  var_attribute : string;
  var_interval : string;
  var_startDate : option string;
  var_endDate : option string;
  var_dateFormat : string;
}.

Record InfraMonitoringData : Type := { series : option (list DataPoint) }.

Record InfraMonitoringQuery : Type := {
  query_data : option InfraMonitoringData;
  query_isLoading : bool;
}.

Record CategoryAttribute : Type := {
  anchor : string;
  key : string;
  attribute : string;
  name : string;
  unit : string;
  chartPrefix : option string;
  chartDescription : string;
}.

Record CategoryMeta : Type := {
  category_key : string;
  category_name : string;
  category_description : string;
  attributes : list CategoryAttribute;
}.

(** The hooks, the helper and the static catalog the component imports. *)
Class Collaborators : Type := {
  useProjectSubscriptionV2Query : string -> option Subscription;
  useResourceWarningsQuery : option (list ResourceWarning);
  useProjectAddonsQuery : string -> option ProjectAddons;
  useInfraMonitoringQuery : InfraMonitoringVariables -> InfraMonitoringQuery;
  getUpgradeUrl : string -> option Subscription -> string;
  USAGE_CATEGORIES : list CategoryMeta;
}.

Record InfrastructureProps : Type := {
  projectRef : string;
  startDate : option string;
  endDate : option string;
  currentBillingCycleSelected : bool;
}.

(** ** The element tree the component returns *)

(** The sentence under "Disk IO Bandwidth"; the figures are kept as numbers,
    their [toLocaleString()] rendering is not modelled. *)
Inductive ThroughputSentence : Type :=
  | FixedThroughput (max_mbps : option JS.number)
  | BurstThenRevert (max_mbps baseline_mbps : option JS.number).

Inductive OverviewValue : Type :=
  | PlainText (s : string)
  | Mbps (n : option JS.number).

Record OverviewRow : Type := {
  row_label : string;
  row_value : OverviewValue;
}.

Record DiskIOBandwidthWarningsProps : Type := {
  io_upgradeUrl : string;
  io_isFreePlan : bool;
  io_hasLatest : bool;
  io_currentBillingCycleSelected : bool;
  io_latestIoBudgetConsumption : JS.number;
  io_highestIoBudgetConsumption : JS.number;
}.

Record UsageBarChartProps : Type := {
  chart_name : string;
  chart_unit : string;
  chart_attribute : string;
  chart_data : list DataPoint;
  chart_yLimit : Z;
}.

Inductive ChartBody : Type :=
  | ShimmeringLoaders
  | UsageBarChart (p : UsageBarChartProps)
  | NoDataPanel.

Inductive Heading : Type :=
  | DiskIOConsumedPer (period : string)
  | MaxUtilizationPer (attribute_name : string) (lowercase : bool) (period : string).

Inductive Element : Type :=
  | DiskIOBandwidthWarnings (p : DiskIOBandwidthWarningsProps)
  | DiskIOBandwidth (sentence : ThroughputSentence)
  | Overview (rows : list OverviewRow)
  | CPUWarnings (isFreePlan : bool) (upgradeUrl : string) (severity : option string)
  | RAMWarnings (isFreePlan : bool) (upgradeUrl : string) (severity : option string)
  | ChartHeading (h : Heading)
  | MemoryNote (memory : option JS.number) (smallestInstanceCaveat : bool)
  | CpuCoresNote (cores : option JS.number)
  | Paragraph (idx : nat) (text : string)
  | Chart (body : ChartBody).

(** One [<div id=anchor key=key><SectionContent section=attribute>...]. *)
Record AttributeSection : Type := {
  section_id : string;
  section_key : string;
  section : CategoryAttribute;
  children : list Element;
}.

Inductive Rendered : Type :=
  | RenderNull
  | Fragment (title description : string) (sections : list AttributeSection).

(** ** Subscription.utils *)

(** Modelled from the spec: [getAddons] of [../Subscription/Subscription.utils]
    is not part of the sources; the spec has it "find an add-on of compute
    instance kind" among the selected add-ons.  Only the [computeInstance]
    member of its result is used here. *)
Definition getAddons (selectedAddons : list Addon) : option Addon :=
  List.find (fun addon => String.eqb (addon_type addon) "compute_instance") selectedAddons.

(** ** The component *)

Section Component.
Context `{Host} `{Collaborators}.

(** [resourceWarnings?.find((x) => x.project === projectRef)] *)
Definition projectResourceWarnings (resourceWarnings : option (list ResourceWarning))
    (projectRef : string) : option ResourceWarning :=
  match resourceWarnings with
  | Some warnings => List.find (fun x => String.eqb (project x) projectRef) warnings
  | None => None
  end.

(** [USAGE_CATEGORIES.find((category) => category.key === 'infra')] *)
Definition categoryMeta : option CategoryMeta :=
  List.find (fun category => String.eqb (category_key category) "infra") USAGE_CATEGORIES.

(** [subscription?.plan?.id === 'free'] *)
Definition isFreePlan (subscription : option Subscription) : bool :=
  match subscription with
  | Some sub =>
      match plan sub with
      | Some p => String.eqb (plan_id p) "free"
      | None => false
      end
  | None => false
  end.

(** [addons?.selected_addons ?? []] *)
Definition selectedAddons (addons : option ProjectAddons) : list Addon :=
  match addons with
  | Some a => default [] (selected_addons a)
  | None => []
  end.

Definition defaultComputeInstanceSpecs : VariantMeta :=
  {| baseline_disk_io_mbs := Some (JS.of_Z 87);
     max_disk_io_mbs := Some (JS.of_Z 2085);
     cpu_cores := Some (JS.of_Z 2);
     cpu_dedicated := Some true;
     memory_gb := Some (JS.of_Z 1) |}.

(** [computeInstance?.variant?.meta ?? { ... }] *)
Definition currentComputeInstanceSpecs (computeInstance : option Addon) : VariantMeta :=
  match computeInstance with
  | Some addon =>
      match variant addon with
      | Some v => default defaultComputeInstanceSpecs (meta v)
      | None => defaultComputeInstanceSpecs
      end
  | None => defaultComputeInstanceSpecs
  end.

(** [computeInstance?.variant?.name ?? 'Micro'] *)
Definition computeInstanceName (computeInstance : option Addon) : string :=
  match computeInstance with
  | Some addon =>
      match variant addon with
      | Some v => variant_name v
      | None => "Micro"
      end
  | None => "Micro"
  end.

(** A string prop in a condition: undefined and the empty string are falsy. *)
Definition truthy (s : option string) : bool :=
  match s with
  | Some (String _ _) => true
  | _ => false
  end.

(** The pair [(interval, dateFormat)] after lines 53-62. *)
Definition interval (startDate endDate : option string) : string * string :=
  if truthy startDate && truthy endDate then
    let diffInHours := Dayjs.diff_hours (Dayjs.dayjs endDate) (Dayjs.dayjs startDate) in
    if JS.le diffInHours (JS.of_Z 48) then ("1h", "h a") else ("1d", "DD MMM")
  else ("1d", "DD MMM").

(** [dayjs(endDate!).isAfter(dayjs().startOf('day'))] *)
Definition hasLatest (endDate : option string) : bool :=
  Dayjs.isAfter (Dayjs.dayjs endDate) (Dayjs.startOf_day (Dayjs.dayjs None)).

(** [ioBudgetData?.data] *)
Definition data_of (queryData : option InfraMonitoringData) : option (list DataPoint) :=
  match queryData with
  | Some d => series d
  | None => None
  end.

(** [ioBudgetData?.data?.slice(-1)?.[0]] *)
Definition lastPoint (ioBudgetData : option InfraMonitoringData) : option DataPoint :=
  match data_of ioBudgetData with
  | Some points => head (JS.slice_last points)
  | None => None
  end.

(** [hasLatest && lastPoint ? Number(lastPoint.disk_io_consumption) : 0] *)
Definition latestIoBudgetConsumption (hasLatest : bool)
    (ioBudgetData : option InfraMonitoringData) : JS.number :=
  match (if hasLatest then lastPoint ioBudgetData else None) with
  | Some point => Number (field point "disk_io_consumption")
  | None => JS.of_Z 0
  end.

(** [Math.max(...(ioBudgetData?.data || []).map((x) => Number(x.disk_io_consumption) ?? 0), 0)] *)
Definition highestIoBudgetConsumption (ioBudgetData : option InfraMonitoringData) : JS.number :=
  Math_max
    (map (fun x => JS.nullish_coalesce
                     (JS.VNumber (Number (field x "disk_io_consumption")))
                     (JS.VNumber (JS.of_Z 0)))
         (default [] (data_of ioBudgetData))
     ++ [JS.VNumber (JS.of_Z 0)]).

Record ChartMetaEntry : Type := {
  entry_isLoading : bool;
  entry_data : list DataPoint;
}.

Definition chartMetaEntry (query : InfraMonitoringQuery) : ChartMetaEntry :=
  {| entry_isLoading := query_isLoading query;
     entry_data := default [] (data_of (query_data query)) |}.

Definition chartMeta (cpuUsage memoryUsage ioBudget : InfraMonitoringQuery)
    : gmap string ChartMetaEntry :=
  {[ "max_cpu_usage" := chartMetaEntry cpuUsage;
     "ram_usage" := chartMetaEntry memoryUsage;
     "disk_io_consumption" := chartMetaEntry ioBudget ]}.

(** What one render pass has computed when it reaches the [return]. *)
Record Derived : Type := {
  d_upgradeUrl : string;
  d_isFreePlan : bool;
  d_warnings : option ResourceWarning;
  d_computeInstance : option Addon;
  d_specs : VariantMeta;
  d_interval : string;
  d_hasLatest : bool;
  d_currentBillingCycleSelected : bool;
  d_latestIoBudgetConsumption : JS.number;
  d_highestIoBudgetConsumption : JS.number;
  d_chartMeta : gmap string ChartMetaEntry;
}.

(** Lines 142-155: the sentence under "Disk IO Bandwidth". *)
Definition throughputSentence (specs : VariantMeta) : ThroughputSentence :=
  if JS.strict_eq (baseline_disk_io_mbs specs) (max_disk_io_mbs specs)
  then FixedThroughput (max_disk_io_mbs specs)
  else BurstThenRevert (max_disk_io_mbs specs) (baseline_disk_io_mbs specs).

(** Lines 157-184: the rows of the overview table. *)
Definition overviewRows (computeInstance : option Addon) (specs : VariantMeta)
    : list OverviewRow :=
  [ {| row_label := "Current compute instance";
       row_value := PlainText (computeInstanceName computeInstance) |};
    {| row_label := "Maximum IO Bandwidth (burst limit)";
       row_value := Mbps (max_disk_io_mbs specs) |};
    {| row_label := "Baseline IO Bandwidth";
       row_value := Mbps (baseline_disk_io_mbs specs) |} ]
  ++ (if negb (JS.strict_eq (max_disk_io_mbs specs) (baseline_disk_io_mbs specs))
      then [ {| row_label := "Daily burst time limit";
                row_value := PlainText "30 mins" |} ]
      else []).

(** Lines 129-186: what is rendered for [attribute.key === 'disk_io_consumption']. *)
Definition diskIoBlock (d : Derived) : list Element :=
  [ DiskIOBandwidthWarnings
      {| io_upgradeUrl := d_upgradeUrl d;
         io_isFreePlan := d_isFreePlan d;
         io_hasLatest := d_hasLatest d;
         io_currentBillingCycleSelected := d_currentBillingCycleSelected d;
         io_latestIoBudgetConsumption := d_latestIoBudgetConsumption d;
         io_highestIoBudgetConsumption := d_highestIoBudgetConsumption d |};
    DiskIOBandwidth (throughputSentence (d_specs d));
    Overview (overviewRows (d_computeInstance d) (d_specs d)) ].

(** [interval === '1d' ? 'day' : 'hour'] *)
Definition period (interval : string) : string :=
  if String.eqb interval "1d" then "day" else "hour".

(** Lines 202-243: heading, notes on the compute size, description paragraphs. *)
Definition descriptionBlock (d : Derived) (a : CategoryAttribute) : list Element :=
  [ ChartHeading
      (if String.eqb (key a) "disk_io_consumption"
       then DiskIOConsumedPer (period (d_interval d))
       else MaxUtilizationPer (name a) (String.eqb (key a) "ram_usage")
                              (period (d_interval d))) ]
  ++ (if String.eqb (key a) "ram_usage"
      then [ MemoryNote (memory_gb (d_specs d))
               (JS.strict_eq (memory_gb (d_specs d)) (Some (JS.of_Z 1))) ]
      else [])
  ++ (if String.eqb (key a) "max_cpu_usage"
      then [ CpuCoresNote (cpu_cores (d_specs d)) ]
      else [])
  ++ imap Paragraph (JS.split "010"%char (chartDescription a)).

(** Lines 244-272: the chart body.  [chartMeta[attribute.key].isLoading] has
    no optional chaining: it throws when the key has no entry. *)
Definition chartBody (d : Derived) (a : CategoryAttribute) : JS.completion ChartBody :=
  let chartData :=
    match JS.get (d_chartMeta d) (key a) with
    | JS.Own entry => entry_data entry
    | JS.Inherited | JS.Missing => []
    end in
  let populated :=
    if bool_decide (length chartData = 0%nat) then NoDataPanel
    else UsageBarChart
           {| chart_name := default EmptyString (chartPrefix a) +:+ name a;
              chart_unit := unit a;
              chart_attribute := attribute a;
              chart_data := chartData;
              chart_yLimit := 100 |} in
  match JS.get (d_chartMeta d) (key a) with
  | JS.Missing =>
      JS.Throw (JS.TypeError "Cannot read properties of undefined (reading 'isLoading')")
  | JS.Inherited => JS.Normal populated
  | JS.Own entry =>
      JS.Normal (if entry_isLoading entry then ShimmeringLoaders else populated)
  end.

(** The callback of [categoryMeta.attributes.map].  The chart body is the
    only child whose evaluation can throw; the others have no effect, so it
    is evaluated first here. *)
Definition renderAttribute (d : Derived) (a : CategoryAttribute)
    : JS.completion AttributeSection :=
  JS.bind (chartBody d a) (fun body =>
  JS.Normal
    {| section_id := anchor a;
       section_key := key a;
       section := a;
       children :=
         (if String.eqb (key a) "disk_io_consumption" then diskIoBlock d else [])
         ++ (if String.eqb (key a) "max_cpu_usage"
             then [ CPUWarnings (d_isFreePlan d) (d_upgradeUrl d)
                      (d_warnings d ≫= cpu_exhaustion) ]
             else [])
         ++ (if String.eqb (key a) "ram_usage"
             then [ RAMWarnings (d_isFreePlan d) (d_upgradeUrl d)
                      (d_warnings d ≫= memory_and_swap_exhaustion) ]
             else [])
         ++ descriptionBlock d a
         ++ [ Chart body ] |}).

(** The query of one metric, as the component issues it. *)
Definition metricQuery (props : InfrastructureProps) (attr : string) : InfraMonitoringQuery :=
  useInfraMonitoringQuery
    {| var_projectRef := projectRef props;
       var_attribute := attr;
       var_interval := fst (interval (startDate props) (endDate props));
       var_startDate := startDate props;
       var_endDate := endDate props;
       var_dateFormat := snd (interval (startDate props) (endDate props)) |}.

(** Lines 32-116: everything computed before the [return]. *)
Definition derive (props : InfrastructureProps) : Derived :=
  let subscription := useProjectSubscriptionV2Query (projectRef props) in
  let computeInstance :=
    getAddons (selectedAddons (useProjectAddonsQuery (projectRef props))) in
  let ioBudgetData := query_data (metricQuery props "disk_io_consumption") in
  {| d_upgradeUrl := getUpgradeUrl (projectRef props) subscription;
     d_isFreePlan := isFreePlan subscription;
     d_warnings := projectResourceWarnings useResourceWarningsQuery (projectRef props);
     d_computeInstance := computeInstance;
     d_specs := currentComputeInstanceSpecs computeInstance;
     d_interval := fst (interval (startDate props) (endDate props));
     d_hasLatest := hasLatest (endDate props);
     d_currentBillingCycleSelected := currentBillingCycleSelected props;
     d_latestIoBudgetConsumption :=
       latestIoBudgetConsumption (hasLatest (endDate props)) ioBudgetData;
     d_highestIoBudgetConsumption := highestIoBudgetConsumption ioBudgetData;
     d_chartMeta :=
       chartMeta (metricQuery props "max_cpu_usage")
                 (metricQuery props "ram_usage")
                 (metricQuery props "disk_io_consumption") |}.

(** The component: [null] without an "infra" category, otherwise the header
    and one section per attribute of the category. *)
Definition Infrastructure (props : InfrastructureProps) : JS.completion Rendered :=
  let d := derive props in
  match categoryMeta with
  | None => JS.Normal RenderNull
  | Some meta =>
      JS.bind (JS.map_throwing (renderAttribute d) (attributes meta)) (fun sections =>
      JS.Normal (Fragment (category_name meta) (category_description meta) sections))
  end.

End Component.

(** ** A concrete host and concrete collaborators, to run the component *)

Module Fixtures.

Definition digit (c : ascii) : option Z :=
  let n := Z.of_N (N_of_ascii c) in
  if (48 <=? n) && (n <=? 57) then Some (n - 48) else None.

(** The value of a non-empty string of decimal digits. *)
Fixpoint digits_from (acc : Z) (s : string) : option Z :=
  match s with
  | EmptyString => Some acc
  | String c rest =>
      match digit c with
      | Some d => digits_from (10 * acc + d) rest
      | None => None
      end
  end.

Definition digits (s : string) : option Z :=
  match s with
  | EmptyString => None
  | _ => digits_from 0 s
  end.

Definition is_leap (y : Z) : bool :=
  ((y mod 4 =? 0) && negb (y mod 100 =? 0)) || (y mod 400 =? 0).

Definition days_in_month (y m : Z) : Z :=
  if m =? 2 then (if is_leap y then 29 else 28)
  else if (m =? 4) || (m =? 6) || (m =? 9) || (m =? 11) then 30
  else 31.

(** Days between 1970-01-01 and the civil date [y-m-d]. *)
Definition days_from_civil (y m d : Z) : Z :=
  let y' := if m <=? 2 then y - 1 else y in
  let era := y' / 400 in
  let yoe := y' - era * 400 in
  let doy := (153 * (if 2 <? m then m - 3 else m + 9) + 2) / 5 + d - 1 in
  let doe := yoe * 365 + yoe / 4 - yoe / 100 + doy in
  era * 146097 + doe - 719468.

(** Timestamps of the form [YYYY-MM-DDTHH:mm:ss.sssZ], the output format of
    [toISOString()]; any other string is taken to be an invalid date. *)
Definition parse_iso_utc (s : string) : option Z :=
  if negb (Nat.eqb (String.length s) 24) then None
  else if negb (String.eqb (substring 4 1 s) "-" && String.eqb (substring 7 1 s) "-"
                && String.eqb (substring 10 1 s) "T" && String.eqb (substring 13 1 s) ":"
                && String.eqb (substring 16 1 s) ":" && String.eqb (substring 19 1 s) "."
                && String.eqb (substring 23 1 s) "Z") then None
  else
    y ← digits (substring 0 4 s);
    m ← digits (substring 5 2 s);
    d ← digits (substring 8 2 s);
    hh ← digits (substring 11 2 s);
    mm ← digits (substring 14 2 s);
    ss ← digits (substring 17 2 s);
    ms ← digits (substring 20 3 s);
    if (1 <=? m) && (m <=? 12) && (1 <=? d) && (d <=? days_in_month y m)
       && (hh <=? 23) && (mm <=? 59) && (ss <=? 59)
    then Some ((((days_from_civil y m d * 24 + hh) * 60 + mm) * 60 + ss) * 1000 + ms)
    else None.

(** [Number(s)] on the strings the examples use: the empty string is 0, a
    string of decimal digits is its value, a string with any other
    character in it is taken to be NaN. *)
Definition number_of_digits (s : string) : JS.number :=
  match s with
  | EmptyString => JS.of_Z 0
  | _ => match digits s with
         | Some n => JS.of_Z n
         | None => JS.NaN
         end
  end.

(** A render at 2023-06-15 12:00 UTC, in a UTC time zone. *)
#[export] Instance host : Host := {|
  StringToNumber := number_of_digits;
  dayjs_parse := parse_iso_utc;
  Date_now := default 0 (parse_iso_utc "2023-06-15T12:00:00.000Z");
  LocalTZA := fun _ _ => 0;
|}.

Definition point (period_start : string) (attr : string) (v : JS.value) : DataPoint :=
  {[ "period_start" := JS.VString period_start; attr := v ]}.

Definition cpuAttribute : CategoryAttribute :=
  {| anchor := "cpu"; key := "max_cpu_usage"; attribute := "max_cpu_usage";
     name := "CPU"; unit := "percentage"; chartPrefix := Some "Max ";
     chartDescription := "Max CPU usage of your server" |}.

Definition ramAttribute : CategoryAttribute :=
  {| anchor := "ram"; key := "ram_usage"; attribute := "ram_usage";
     name := "Memory"; unit := "percentage"; chartPrefix := Some "Max ";
     chartDescription := "Memory usage of your server" |}.

Definition diskIoAttribute : CategoryAttribute :=
  {| anchor := "disk_io"; key := "disk_io_consumption";
     attribute := "disk_io_consumption"; name := "Disk IO bandwidth";
     unit := "percentage"; chartPrefix := None;
     chartDescription := "Daily IO budget" |}.

(** An attribute for which the component issues no query. *)
Definition swapAttribute : CategoryAttribute :=
  {| anchor := "swap"; key := "swap_usage"; attribute := "swap_usage";
     name := "Swap"; unit := "percentage"; chartPrefix := None;
     chartDescription := "Swap usage of your server" |}.

Definition infraCategory (attrs : list CategoryAttribute) : CategoryMeta :=
  {| category_key := "infra"; category_name := "Infrastructure";
     category_description := "Usage statistics related to your server instance";
     attributes := attrs |}.

Definition bandwidthCategory : CategoryMeta :=
  {| category_key := "bandwidth"; category_name := "Bandwidth";
     category_description := "Amount of data transmitted"; attributes := [] |}.

Definition ioSeries : list DataPoint :=
  [ point "2023-06-13T00:00:00.000Z" "disk_io_consumption" (JS.VNumber (JS.of_Z 5));
    point "2023-06-14T00:00:00.000Z" "disk_io_consumption" (JS.VNumber (JS.of_Z 9)) ].

(** CPU still loading, memory resolved without points, disk IO resolved
    with two points. *)
Definition monitoring (vars : InfraMonitoringVariables) : InfraMonitoringQuery :=
  if String.eqb (var_attribute vars) "max_cpu_usage"
  then {| query_data := None; query_isLoading := true |}
  else if String.eqb (var_attribute vars) "ram_usage"
  then {| query_data := Some {| series := Some [] |}; query_isLoading := false |}
  else {| query_data := Some {| series := Some ioSeries |}; query_isLoading := false |}.

Definition upgradeUrl (ref : string) (subscription : option Subscription) : string :=
  "/project/" +:+ ref +:+ "/settings/billing/subscription".

Definition computeAddon (name : string) (baseline max : Z) : Addon :=
  {| addon_type := "compute_instance";
     variant := Some {| variant_name := name;
                        meta := Some {| baseline_disk_io_mbs := Some (JS.of_Z baseline);
                                        max_disk_io_mbs := Some (JS.of_Z max);
                                        cpu_cores := Some (JS.of_Z 16);
                                        cpu_dedicated := Some true;
                                        memory_gb := Some (JS.of_Z 64) |} |} |}.

Definition pitrAddon : Addon :=
  {| addon_type := "pitr";
     variant := Some {| variant_name := "Point in Time Recovery - 7 days"; meta := None |} |}.

(** Collaborators with the given catalog, subscription and selected
    add-ons, and no resource warning. *)
Definition collaborators (catalog : list CategoryMeta) (subscription : option Subscription)
    (selected : list Addon) : Collaborators :=
  {| useProjectSubscriptionV2Query := fun _ => subscription;
     useResourceWarningsQuery := None;
     useProjectAddonsQuery := fun _ => Some {| selected_addons := Some selected |};
     useInfraMonitoringQuery := monitoring;
     getUpgradeUrl := upgradeUrl;
     USAGE_CATEGORIES := catalog |}.

Definition props (startDate endDate : option string) : InfrastructureProps :=
  {| projectRef := "ref"; startDate := startDate; endDate := endDate;
     currentBillingCycleSelected := true |}.

End Fixtures.

(** ** Vocabulary of the specification *)

(** A bound is present when the prop is a non-empty string that dayjs
    parses to a valid instant [t] (milliseconds since the epoch). *)
Definition present `{Host} (date : option string) (t : Z) : Prop :=
  exists s, date = Some s /\ s <> EmptyString /\ dayjs_parse s = Some t.

(** Local time of day of the render pass, in milliseconds since local
    midnight. *)
Definition localTimeOfDay `{Host} : Z :=
  (Date_now + LocalTZA Date_now true) mod Dayjs.MILLISECONDS_A_DAY.

(** Local midnight of the local date of the render pass, as a local time
    value. *)
Definition localMidnight `{Host} : Z :=
  Date_now + LocalTZA Date_now true - localTimeOfDay.

(** By how much the local clock has been put forward between local
    midnight and the render pass: 0 on a day without a clock change,
    negative when the clock has been put back. *)
Definition clockShiftToday `{Host} : Z :=
  LocalTZA Date_now true - LocalTZA localMidnight false.

(** The start of the current calendar day: the instant of local midnight
    of the local date of the render pass. *)
Definition startOfToday `{Host} : Z :=
  localMidnight - LocalTZA localMidnight false.

(** The sentences under "Disk IO Bandwidth" among the children of a
    section. *)
Definition throughputSentences (els : list Element) : list ThroughputSentence :=
  omap (fun el => match el with DiskIOBandwidth s => Some s | _ => None end) els.

(** The overview tables among the children of a section. *)
Definition overviewTables (els : list Element) : list (list OverviewRow) :=
  omap (fun el => match el with Overview rows => Some rows | _ => None end) els.

(** The compute specs a render resolves from the add-ons query. *)
Definition resolvedSpecs `{Collaborators} (props : InfrastructureProps) : VariantMeta :=
  currentComputeInstanceSpecs
    (getAddons (selectedAddons (useProjectAddonsQuery (projectRef props)))).

(** The larger of two numbers that are not NaN. *)
Definition larger (a b : JS.number) : JS.number := if JS.lt a b then b else a.

(** The value a point contributes according to the specification: its
    numeric value, or 0 when that value is missing or not a number. *)
Definition numeric_or_zero `{Host} (x : DataPoint) : JS.number :=
  match Number (field x "disk_io_consumption") with
  | JS.NaN => JS.of_Z 0
  | n => n
  end.

(** The specification of the highest consumption: the largest contribution
    of a point of the series, and 0 for an empty series. *)
Definition spec_highestConsumption `{Host} (points : list DataPoint) : JS.number :=
  match map numeric_or_zero points with
  | [] => JS.of_Z 0
  | v :: rest => foldl larger v rest
  end.

(** The keys for which the component issues a monitoring query. *)
Definition metricKeys : list string :=
  [ "max_cpu_usage"; "ram_usage"; "disk_io_consumption" ].

(** The chart body the specification selects from one metric's query:
    the placeholder while it loads, the empty-state panel for an empty
    series, the bar chart otherwise. *)
Definition selectedBody (a : CategoryAttribute) (query : InfraMonitoringQuery) : ChartBody :=
  if query_isLoading query then ShimmeringLoaders
  else match default [] (data_of (query_data query)) with
       | [] => NoDataPanel
       | points =>
           UsageBarChart
             {| chart_name := default EmptyString (chartPrefix a) +:+ name a;
                chart_unit := unit a;
                chart_attribute := attribute a;
                chart_data := points;
                chart_yLimit := 100 |}
       end.

(** The chart bodies among the children of a section. *)
Definition chartBodies (els : list Element) : list ChartBody :=
  omap (fun el => match el with Chart body => Some body | _ => None end) els.

(** The [isFreePlan] prop of a warning component. *)
Definition isFreePlanProp (el : Element) : option bool :=
  match el with
  | DiskIOBandwidthWarnings p => Some (io_isFreePlan p)
  | CPUWarnings isFree _ _ => Some isFree
  | RAMWarnings isFree _ _ => Some isFree
  | _ => None
  end.

(** [pieces.join(sep)] for a one-character separator. *)
Fixpoint join (sep : ascii) (pieces : list string) : string :=
  match pieces with
  | [] => EmptyString
  | piece :: rest =>
      match rest with
      | [] => piece
      | _ :: _ => piece +:+ String sep (join sep rest)
      end
  end.

(** Whether the character [c] occurs in [s]. *)
Fixpoint contains (c : ascii) (s : string) : bool :=
  match s with
  | EmptyString => false
  | String c' rest => Ascii.eqb c' c || contains c rest
  end.

(** The description paragraphs among the children of a section, with their
    React keys [para-idx]. *)
Definition paragraphs (els : list Element) : list (nat * string) :=
  omap (fun el => match el with Paragraph idx text => Some (idx, text) | _ => None end) els.

(** The metric a warning component belongs to. *)
Definition warningKind (el : Element) : option string :=
  match el with
  | DiskIOBandwidthWarnings _ => Some "disk_io_consumption"
  | CPUWarnings _ _ _ => Some "max_cpu_usage"
  | RAMWarnings _ _ _ => Some "ram_usage"
  | _ => None
  end.

(** The [upgradeUrl] prop of a warning component. *)
Definition upgradeUrlProp (el : Element) : option string :=
  match el with
  | DiskIOBandwidthWarnings p => Some (io_upgradeUrl p)
  | CPUWarnings _ url _ => Some url
  | RAMWarnings _ url _ => Some url
  | _ => None
  end.

(** The period ("day" or "hour") named in the heading above a chart. *)
Definition headingPeriod (el : Element) : option string :=
  match el with
  | ChartHeading (DiskIOConsumedPer p) => Some p
  | ChartHeading (MaxUtilizationPer _ _ p) => Some p
  | _ => None
  end.

(** The same collaborators with another static catalog. *)
Definition withCatalog (C : Collaborators) (catalog : list CategoryMeta) : Collaborators :=
  {| useProjectSubscriptionV2Query := @useProjectSubscriptionV2Query C;
     useResourceWarningsQuery := @useResourceWarningsQuery C;
     useProjectAddonsQuery := @useProjectAddonsQuery C;
     useInfraMonitoringQuery := @useInfraMonitoringQuery C;
     getUpgradeUrl := @getUpgradeUrl C;
     USAGE_CATEGORIES := catalog |}.

(** Collaborators that answer the resource-warning query. *)
Module Examples.

Definition warnings : list ResourceWarning :=
  [ {| project := "other"; cpu_exhaustion := Some "critical";
       memory_and_swap_exhaustion := Some "critical" |};
    {| project := "ref"; cpu_exhaustion := Some "warning";
       memory_and_swap_exhaustion := None |};
    {| project := "ref"; cpu_exhaustion := Some "critical";
       memory_and_swap_exhaustion := Some "warning" |} ].

Definition catalog : list CategoryMeta :=
  [ Fixtures.bandwidthCategory;
    Fixtures.infraCategory
      [ Fixtures.cpuAttribute; Fixtures.ramAttribute; Fixtures.diskIoAttribute ];
    Fixtures.infraCategory [ Fixtures.swapAttribute ] ].

Definition collaborators : Collaborators :=
  {| useProjectSubscriptionV2Query := fun _ => Some {| plan := Some {| plan_id := "free" |} |};
     useResourceWarningsQuery := Some warnings;
     useProjectAddonsQuery := fun _ => None;
     useInfraMonitoringQuery := Fixtures.monitoring;
     getUpgradeUrl := Fixtures.upgradeUrl;
     USAGE_CATEGORIES := catalog |}.

(** A render on the day the clocks are put back in New York: local time is
    UTC-4 until 2023-11-05 06:00 UTC (02:00 local) and UTC-5 after it, the
    hour from 01:00 to 02:00 local occurs twice, and the day lasts 25 hours.
    The render happens at 23:30 local time, 24 hours and 30 minutes after
    local midnight. *)
Definition clocksPutBack : Z := 1699164000000.

Definition fallBackHost : Host :=
  {| StringToNumber := Fixtures.number_of_digits;
     dayjs_parse := Fixtures.parse_iso_utc;
     Date_now := default 0 (Fixtures.parse_iso_utc "2023-11-06T04:30:00.000Z");
     LocalTZA := fun time isUTC =>
       if isUTC
       then (if time <? clocksPutBack then -14400000 else -18000000)
       else (if time <? clocksPutBack - 14400000 then -14400000 else -18000000) |}.

(** A description of two paragraphs. *)
Definition twoParagraphs : CategoryAttribute :=
  {| anchor := "ram"; key := "ram_usage"; attribute := "ram_usage";
     name := "Memory"; unit := "percentage"; chartPrefix := Some "Max ";
     chartDescription :=
       "Memory usage of your server" +:+ String "010"%char "Includes swap" |}.

End Examples.

(** * Properties *)

(** ** Numbers *)

Lemma Qc_of_Z_compare (a b : Z) : (Qc_of_Z a ?= Qc_of_Z b)%Qc = (a ?= b).
Proof.
  unfold Qccompare, Qcompare; simpl. by rewrite !Z.mul_1_r.
Qed.

Lemma lt_of_Z (a b : Z) : JS.lt (JS.of_Z a) (JS.of_Z b) = (a <? b).
Proof.
  unfold JS.lt, JS.of_Z, Z.ltb. rewrite Qc_of_Z_compare. by destruct (a ?= b).
Qed.

Lemma le_of_Z (a b : Z) : JS.le (JS.of_Z a) (JS.of_Z b) = (a <=? b).
Proof.
  unfold JS.le, JS.of_Z. fold (JS.of_Z a) (JS.of_Z b). rewrite lt_of_Z.
  rewrite Z.ltb_antisym. by rewrite negb_involutive.
Qed.

Lemma number_strict_eq_true (a b : JS.number) :
  JS.number_strict_eq a b = true <-> a = b /\ a <> JS.NaN.
Proof.
  destruct a as [| |x|], b as [| |y|]; simpl; try (split; [done | by intros [? ?]]);
    try (split; [done | intros [[=] _]]); try done.
  destruct (x ?= y)%Qc eqn:E.
  - apply Qceq_alt in E as ->. done.
  - split; [done | intros [[= ->] _]]. apply Qclt_alt in E. by apply Qclt_not_eq in E.
  - split; [done | intros [[= ->] _]]. apply Qcgt_alt in E. by apply Qclt_not_eq in E.
Qed.

(** [===] on two optional numbers is equality, except that NaN differs from
    itself. *)
Lemma strict_eq_true (a b : option JS.number) :
  JS.strict_eq a b = true <-> a = b /\ a <> Some JS.NaN.
Proof.
  destruct a as [x|], b as [y|]; simpl; try (split; [done | by intros [? ?]]); try done.
  rewrite number_strict_eq_true. split.
  - intros [-> ?]. split; [done | congruence].
  - intros [[= ->] ?]. split; [done | congruence].
Qed.

Lemma lt_Finite (x y : Qc) : JS.lt (JS.Finite x) (JS.Finite y) = true <-> (x < y)%Qc.
Proof.
  simpl. rewrite Qclt_alt. by destruct (x ?= y)%Qc.
Qed.

Lemma le_Finite (x y : Qc) : JS.le (JS.Finite x) (JS.Finite y) = true <-> (x ≤ y)%Qc.
Proof.
  unfold JS.le. rewrite negb_true_iff, <- not_true_iff_false, lt_Finite.
  split; [apply Qcnot_lt_le | apply Qcle_not_lt].
Qed.

Lemma le_refl (a : JS.number) : a <> JS.NaN -> JS.le a a = true.
Proof.
  destruct a as [| |x|]; try done. intros _. apply le_Finite, Qcle_refl.
Qed.

Lemma le_trans (a b c : JS.number) :
  JS.le a b = true -> JS.le b c = true -> JS.le a c = true.
Proof.
  destruct a as [| |x|], b as [| |y|], c as [| |z|]; try done.
  rewrite !le_Finite. apply Qcle_trans.
Qed.

Lemma le_antisym (a b : JS.number) :
  JS.le a b = true -> JS.le b a = true -> a = b.
Proof.
  destruct a as [| |x|], b as [| |y|]; try done.
  rewrite !le_Finite. intros Hxy Hyx. f_equal. by apply Qcle_antisym.
Qed.

Lemma lt_le (a b : JS.number) : JS.lt a b = true -> JS.le a b = true.
Proof.
  destruct a as [| |x|], b as [| |y|]; try done.
  rewrite lt_Finite, le_Finite. apply Qclt_le_weak.
Qed.

Lemma not_lt_le (a b : JS.number) :
  a <> JS.NaN -> b <> JS.NaN -> JS.lt a b = false -> JS.le b a = true.
Proof.
  intros Ha Hb Hlt. unfold JS.le. rewrite Hlt. by destruct a, b.
Qed.

(** ** Arrays and strings *)

Lemma head_slice_last {A : Type} (arr : list A) : head (JS.slice_last arr) = last arr.
Proof.
  unfold JS.slice_last. induction arr as [|a [|b rest] IH]; [done | done |].
  change (last (a :: b :: rest)) with (last (b :: rest)). rewrite <- IH.
  simpl. by rewrite Nat.sub_0_r.
Qed.

Lemma map_throwing_normal {A B : Type} (f : A -> JS.completion B) (g : A -> B) (l : list A) :
  (forall a, a ∈ l -> f a = JS.Normal (g a)) ->
  JS.map_throwing f l = JS.Normal (map g l).
Proof.
  induction l as [|a rest IH]; intros Hf; [done |].
  simpl. rewrite Hf by left. simpl. rewrite IH; [done |].
  intros b Hb. apply Hf. by right.
Qed.

Lemma find_none_iff {A : Type} (p : A -> bool) (l : list A) :
  List.find p l = None <-> forall a, a ∈ l -> p a = false.
Proof.
  split.
  - intros Hnone a Ha. apply list_elem_of_In in Ha. by eapply find_none.
  - induction l as [|a rest IH]; intros Hall; [done |].
    simpl. rewrite Hall by left. apply IH. intros b Hb. apply Hall. by right.
Qed.

(** ** Interval selection *)

Lemma truthy_present `{Host} (date : option string) (t : Z) :
  present date t -> truthy date = true /\ Dayjs.dayjs date = Some t.
Proof.
  intros (s & -> & Hs & Hparse). split; [by destruct s | done].
Qed.

Lemma quot_hours_le_48 (d : Z) :
  Z.quot d Dayjs.MILLISECONDS_A_HOUR <= 48 <-> d < 49 * Dayjs.MILLISECONDS_A_HOUR.
Proof.
  unfold Dayjs.MILLISECONDS_A_HOUR.
  pose proof (Z.quot_rem' d 3600000) as Hd.
  destruct (Z.le_gt_cases 0 d) as [Hpos|Hneg].
  - pose proof (Z.rem_bound_pos d 3600000 Hpos ltac:(lia)). lia.
  - pose proof (Z.rem_bound_pos_neg d 3600000 ltac:(lia) ltac:(lia)). lia.
Qed.

Lemma interval_of_present `{Host} (startDate endDate : option string) (ts te : Z) :
  present startDate ts -> present endDate te ->
  interval startDate endDate =
    if Z.quot (te - ts) Dayjs.MILLISECONDS_A_HOUR <=? 48
    then ("1h", "h a") else ("1d", "DD MMM").
Proof.
  intros [Hs Hds]%truthy_present [He Hde]%truthy_present.
  unfold interval. rewrite Hs, He, Hds, Hde. cbn [andb].
  unfold Dayjs.diff_hours. by rewrite le_of_Z.
Qed.

Lemma interval_of_missing `{Host} (startDate endDate : option string) :
  (forall t, ~ present startDate t) \/ (forall t, ~ present endDate t) ->
  interval startDate endDate = ("1d", "DD MMM").
Proof.
  intros Hmissing. unfold interval.
  destruct (truthy startDate) eqn:Hs, (truthy endDate) eqn:He; simpl; try done.
  destruct startDate as [[|c s]|], endDate as [[|c' e]|]; try done.
  unfold Dayjs.dayjs, Dayjs.diff_hours.
  destruct (dayjs_parse (String c' e)) as [te|] eqn:Hte; [|done].
  destruct (dayjs_parse (String c s)) as [ts|] eqn:Hts; [|done].
  exfalso. destruct Hmissing as [Hno|Hno].
  - apply (Hno ts). by exists (String c s).
  - apply (Hno te). by exists (String c' e).
Qed.

(** What lines 53-62 compute.  The difference is taken in whole hours,
    truncated towards zero, before it is compared with 48.  Two present
    bounds less than 49 hours apart select the hourly interval ['1h'] with
    the format ['h a']; two present bounds 49 hours or more apart, and a
    missing bound (undefined, empty, or not a valid date), select the daily
    interval ['1d'] with the format ['DD MMM']. *)
Lemma interval_resolution `{Host} (startDate endDate : option string) :
  (forall ts te, present startDate ts -> present endDate te ->
     te - ts < 49 * Dayjs.MILLISECONDS_A_HOUR ->
     interval startDate endDate = ("1h", "h a")) /\
  (forall ts te, present startDate ts -> present endDate te ->
     49 * Dayjs.MILLISECONDS_A_HOUR <= te - ts ->
     interval startDate endDate = ("1d", "DD MMM")) /\
  ((forall t, ~ present startDate t) \/ (forall t, ~ present endDate t) ->
     interval startDate endDate = ("1d", "DD MMM")).
Proof.
  split; [|split].
  - intros ts te Hs He Hlt. rewrite (interval_of_present _ _ ts te Hs He).
    apply quot_hours_le_48 in Hlt. by apply Z.leb_le in Hlt as ->.
  - intros ts te Hs He Hge. rewrite (interval_of_present _ _ ts te Hs He).
    destruct (Z.leb_spec (Z.quot (te - ts) Dayjs.MILLISECONDS_A_HOUR) 48) as [Hle|]; [|done].
    apply quot_hours_le_48 in Hle. lia.
  - apply interval_of_missing.
Qed.

Lemma interval_resolution_witness :
  @interval Fixtures.host (Some "2023-06-01T00:00:00.000Z") (Some "2023-06-02T23:59:00.000Z")
    = ("1h", "h a")
  /\ @interval Fixtures.host (Some "2023-06-01T00:00:00.000Z") (Some "2023-06-04T00:00:00.000Z")
    = ("1d", "DD MMM")
  /\ @interval Fixtures.host (Some "2023-06-01T00:00:00.000Z") None = ("1d", "DD MMM").
Proof.
  pose proof (@interval_resolution Fixtures.host) as Hres.
  split; [|split].
  - apply (proj1 (Hres _ _) 1685577600000 1685750340000).
    + eexists. split; [reflexivity|]. split; [discriminate | reflexivity].
    + eexists. split; [reflexivity|]. split; [discriminate | reflexivity].
    + reflexivity.
  - apply (proj1 (proj2 (Hres _ _)) 1685577600000 1685836800000).
    + eexists. split; [reflexivity|]. split; [discriminate | reflexivity].
    + eexists. split; [reflexivity|]. split; [discriminate | reflexivity].
    + discriminate.
  - apply (proj2 (proj2 (Hres _ _))). right. intros t (s & Hs & _). discriminate.
Defined.

(** C3, at a range the code mishandles.  Two valid bounds 48 hours and 30
    minutes apart: the difference exceeds 48 hours, so the interval should
    be daily (the comment on line 52 says as much: hourly "if the timeframe
    is <48 hours"), and the code selects the hourly interval all the
    same, because [diff] has dropped the 30 minutes. *)
Lemma interval_over_48_hours_hourly :
  @dayjs_parse Fixtures.host "2023-06-01T00:00:00.000Z" = Some 1685577600000
  /\ @dayjs_parse Fixtures.host "2023-06-03T00:30:00.000Z" = Some 1685752200000
  /\ 48 * Dayjs.MILLISECONDS_A_HOUR < 1685752200000 - 1685577600000
  /\ @interval Fixtures.host (Some "2023-06-01T00:00:00.000Z") (Some "2023-06-03T00:30:00.000Z")
     = ("1h", "h a").
Proof. repeat split. Qed.

(** ** Latest disk IO consumption *)

(** The time elapsed since the start of the current calendar day is the
    local time of day, less what the clock has been put forward since. *)
Lemma startOfToday_elapsed `{Host} :
  Date_now - startOfToday = localTimeOfDay - clockShiftToday.
Proof. unfold startOfToday, clockShiftToday, localMidnight. lia. Qed.

(** On a day without a clock change, the day has started before now unless
    the render happens exactly at local midnight. *)
Lemma not_midnight_without_clock_change `{Host} :
  clockShiftToday = 0 -> (clockShiftToday < localTimeOfDay <-> localTimeOfDay <> 0).
Proof.
  intros ->. unfold localTimeOfDay, Dayjs.MILLISECONDS_A_DAY.
  pose proof (Z.mod_pos_bound (Date_now + LocalTZA Date_now true) 86400000 ltac:(lia)).
  lia.
Qed.

Lemma hasLatest_iff `{Host} (endDate : option string) :
  hasLatest endDate = true <-> exists t, Dayjs.dayjs endDate = Some t /\ startOfToday < t.
Proof.
  unfold hasLatest, Dayjs.isAfter, Dayjs.startOf_day.
  change (Dayjs.dayjs None) with (Some Date_now).
  change (Dayjs.UTC (Dayjs.LocalTime Date_now
                     - Dayjs.LocalTime Date_now mod Dayjs.MILLISECONDS_A_DAY))
    with startOfToday.
  destruct (Dayjs.dayjs endDate) as [t|].
  - rewrite Z.ltb_lt. split; [by exists t | by intros (? & [= <-] & ?)].
  - split; [done | by intros (? & ? & ?)].
Qed.

Lemma latest_unfold `{Host} (latest : bool) (ioBudgetData : option InfraMonitoringData) :
  latestIoBudgetConsumption latest ioBudgetData =
    match last (default [] (data_of ioBudgetData)) with
    | Some point =>
        if latest then Number (field point "disk_io_consumption") else JS.of_Z 0
    | None => JS.of_Z 0
    end.
Proof.
  unfold latestIoBudgetConsumption, lastPoint.
  destruct (data_of ioBudgetData) as [points|]; simpl.
  - rewrite head_slice_last. by destruct latest, (last points).
  - by destruct latest.
Qed.

(** C4.  In a render pass, [hasLatest] holds exactly when the end of the
    range is strictly after the start of the current calendar day: the
    instant [endDate] parses to, which must be valid, or the current
    instant when [endDate] is undefined.  The latest consumption is the
    numeric value of the last point of the disk IO series when [hasLatest]
    holds and the series has a point; it is 0 when [hasLatest] is false,
    when the series is empty and when the query has no data. *)
Theorem hasLatest_and_latest `{Host} `{Collaborators} (props : InfrastructureProps) :
  let d := derive props in
  (d_hasLatest d = true <->
     match endDate props with
     | Some end_ => exists t, dayjs_parse end_ = Some t /\ startOfToday < t
     | None => startOfToday < Date_now
     end)
  /\ d_latestIoBudgetConsumption d =
       match query_data (metricQuery props "disk_io_consumption") with
       | Some {| series := Some points |} =>
           match last points with
           | Some point =>
               if d_hasLatest d then Number (field point "disk_io_consumption")
               else JS.of_Z 0
           | None => JS.of_Z 0
           end
       | _ => JS.of_Z 0
       end.
Proof.
  intros d. split.
  - subst d. cbn [derive d_hasLatest]. rewrite hasLatest_iff.
    destruct (endDate props) as [end_|]; [done |]. cbn [Dayjs.dayjs]. split.
    + by intros (t & [= <-] & Hlt).
    + intros Hlt. by exists Date_now.
  - subst d. cbn [derive d_hasLatest d_latestIoBudgetConsumption]. rewrite latest_unfold.
    by destruct (query_data (metricQuery props "disk_io_consumption")) as [[[points|]]|].
Qed.

(** On the 25-hour day the clocks are put back, a range that ended 24 hours
    and 15 minutes before the render still ends after the start of the day;
    on an ordinary day, a range that ended the day before has no latest
    bucket. *)
Lemma hasLatest_and_latest_witness :
  let C := Fixtures.collaborators [] None [] in
  let longDay :=
    @derive Examples.fallBackHost C
      (Fixtures.props None (Some "2023-11-05T04:15:00.000Z")) in
  let yesterday :=
    @derive Fixtures.host C (Fixtures.props None (Some "2023-06-14T23:59:59.999Z")) in
  (d_hasLatest longDay = true /\ d_latestIoBudgetConsumption longDay = JS.of_Z 9)
  /\ (d_hasLatest yesterday = false /\ d_latestIoBudgetConsumption yesterday = JS.of_Z 0).
Proof.
  intros C longDay yesterday. split.
  - destruct (@hasLatest_and_latest Examples.fallBackHost C
                (Fixtures.props None (Some "2023-11-05T04:15:00.000Z")))
      as [Hiff Hlatest].
    assert (d_hasLatest longDay = true) as Hflag.
    { apply Hiff. exists 1699157700000. split; reflexivity. }
    split; [exact Hflag |]. fold longDay in Hlatest. rewrite Hlatest, Hflag. reflexivity.
  - destruct (@hasLatest_and_latest Fixtures.host C
                (Fixtures.props None (Some "2023-06-14T23:59:59.999Z")))
      as [Hiff Hlatest].
    assert (d_hasLatest yesterday = false) as Hflag.
    { apply not_true_is_false. intros (t & Ht & Hlt)%Hiff.
      injection Ht as <-. discriminate Hlt. }
    split; [exact Hflag |]. fold yesterday in Hlatest. rewrite Hlatest, Hflag. reflexivity.
Defined.

(** C9.  Without an [endDate] the end of the range is the current instant:
    [hasLatest] holds unless the render happens at the very instant the
    local day starts (on a day without a clock change: exactly at local
    midnight, see [not_midnight_without_clock_change]), and the latest
    consumption is then read from the last point of the series. *)
Theorem hasLatest_without_endDate `{Host} (ioBudgetData : option InfraMonitoringData) :
  clockShiftToday < localTimeOfDay ->
  hasLatest None = true
  /\ forall point, last (default [] (data_of ioBudgetData)) = Some point ->
       latestIoBudgetConsumption (hasLatest None) ioBudgetData
       = Number (field point "disk_io_consumption").
Proof.
  intros Hstarted.
  assert (hasLatest None = true) as Hlatest.
  { apply hasLatest_iff. exists Date_now. split; [done |].
    pose proof startOfToday_elapsed. lia. }
  split; [done |]. intros point Hlast. by rewrite latest_unfold, Hlast, Hlatest.
Qed.

Lemma hasLatest_without_endDate_witness :
  @hasLatest Fixtures.host None = true
  /\ @latestIoBudgetConsumption Fixtures.host (@hasLatest Fixtures.host None)
       (Some {| series := Some Fixtures.ioSeries |}) = JS.of_Z 9
  /\ @hasLatest Examples.fallBackHost None = true.
Proof.
  pose proof (@hasLatest_without_endDate Fixtures.host
                (Some {| series := Some Fixtures.ioSeries |})) as Hthm.
  destruct Hthm as [Hlatest Hvalue]; [reflexivity |].
  split; [exact Hlatest |]. split.
  - exact (Hvalue (Fixtures.point "2023-06-14T00:00:00.000Z" "disk_io_consumption"
                     (JS.VNumber (JS.of_Z 9))) eq_refl).
  - apply (@hasLatest_without_endDate Examples.fallBackHost None). reflexivity.
Defined.

(** ** Highest disk IO consumption *)

(** The arguments [Math.max] receives: [?? 0] never replaces the result of
    [Number], which is a number even when it is NaN. *)
Lemma highest_unfold `{Host} (ioBudgetData : option InfraMonitoringData) :
  highestIoBudgetConsumption ioBudgetData =
    max_loop JS.NegInfinity
      (map (fun x => Number (field x "disk_io_consumption"))
           (default [] (data_of ioBudgetData)) ++ [JS.of_Z 0]).
Proof.
  unfold highestIoBudgetConsumption, Math_max.
  rewrite map_app, map_map. done.
Qed.

Lemma max_loop_NaN `{Host} (highest : JS.number) (before after : list JS.number) :
  max_loop highest (before ++ JS.NaN :: after) = JS.NaN.
Proof.
  revert highest. induction before as [|n before IH]; intros highest; [done |].
  destruct n; simpl; [done | apply IH..].
Qed.

(** A single point whose value is missing or not a number turns the
    highest consumption into NaN. *)
Lemma highest_NaN `{Host} (ioBudgetData : option InfraMonitoringData) (x : DataPoint) :
  x ∈ default [] (data_of ioBudgetData) ->
  Number (field x "disk_io_consumption") = JS.NaN ->
  highestIoBudgetConsumption ioBudgetData = JS.NaN.
Proof.
  intros (before & after & Hsplit)%list_elem_of_split Hx.
  rewrite highest_unfold, Hsplit, map_app, map_cons, Hx, <- app_assoc. simpl.
  apply max_loop_NaN.
Qed.

Lemma max_loop_foldl `{Host} (highest : JS.number) (l : list JS.number) :
  Forall (fun n => n <> JS.NaN) l ->
  max_loop highest l = foldl larger highest l.
Proof.
  intros Hl. revert highest. induction Hl as [|n l Hn _ IH]; intros highest; [done |].
  destruct n; [done | apply IH..].
Qed.

Lemma larger_NegInfinity (n : JS.number) : n <> JS.NaN -> larger JS.NegInfinity n = n.
Proof. by destruct n. Qed.

Lemma larger_nonneg (a b : JS.number) :
  JS.le (JS.of_Z 0) a = true -> JS.le (JS.of_Z 0) b = true ->
  JS.le (JS.of_Z 0) (larger a b) = true.
Proof. intros Ha Hb. unfold larger. by destruct (JS.lt a b). Qed.

Lemma foldl_larger_nonneg (a : JS.number) (l : list JS.number) :
  JS.le (JS.of_Z 0) a = true ->
  Forall (fun n => JS.le (JS.of_Z 0) n = true) l ->
  JS.le (JS.of_Z 0) (foldl larger a l) = true.
Proof.
  intros Ha Hl. revert a Ha. induction Hl as [|n l Hn _ IH]; intros a Ha; [done |].
  simpl. apply IH. by apply larger_nonneg.
Qed.

Lemma larger_zero_r (a : JS.number) :
  JS.le (JS.of_Z 0) a = true -> larger a (JS.of_Z 0) = a.
Proof.
  unfold larger, JS.le. destruct a; try done.
  simpl. intros Hle. apply negb_true_iff in Hle. unfold JS.lt. by rewrite Hle.
Qed.

Lemma le_zero_not_NaN (n : JS.number) : JS.le (JS.of_Z 0) n = true -> n <> JS.NaN.
Proof. by destruct n. Qed.

(** On a series whose values are all numbers that are not negative, the
    code computes what the specification asks for. *)
Lemma highest_of_percentages `{Host} (ioBudgetData : option InfraMonitoringData) :
  Forall (fun x => JS.le (JS.of_Z 0) (Number (field x "disk_io_consumption")) = true)
         (default [] (data_of ioBudgetData)) ->
  highestIoBudgetConsumption ioBudgetData
  = spec_highestConsumption (default [] (data_of ioBudgetData)).
Proof.
  rewrite highest_unfold. unfold spec_highestConsumption.
  generalize (default [] (data_of ioBudgetData)). intros points Hpoints.
  assert (map numeric_or_zero points
          = map (fun x => Number (field x "disk_io_consumption")) points) as ->.
  { apply map_ext_Forall. eapply Forall_impl; [exact Hpoints |].
    intros x. unfold numeric_or_zero.
    by destruct (Number (field x "disk_io_consumption")). }
  assert (Forall (fun n => JS.le (JS.of_Z 0) n = true)
            (map (fun x => Number (field x "disk_io_consumption")) points)) as Hvalues.
  { by apply Forall_map. }
  revert Hvalues. generalize (map (fun x => Number (field x "disk_io_consumption")) points).
  intros values Hvalues.
  rewrite max_loop_foldl.
  - rewrite foldl_app. simpl. destruct Hvalues as [|v rest Hv Hrest]; [done |].
    simpl. rewrite larger_NegInfinity by by apply le_zero_not_NaN.
    apply larger_zero_r. by apply foldl_larger_nonneg.
  - apply Forall_app. split; [|by repeat constructor].
    eapply Forall_impl; [exact Hvalues |]. apply le_zero_not_NaN.
Qed.

Lemma larger_not_NaN (a b : JS.number) :
  a <> JS.NaN -> b <> JS.NaN -> larger a b <> JS.NaN.
Proof. intros Ha Hb. unfold larger. by destruct (JS.lt a b). Qed.

Lemma larger_upper_bound (a b : JS.number) :
  a <> JS.NaN -> b <> JS.NaN ->
  JS.le a (larger a b) = true /\ JS.le b (larger a b) = true.
Proof.
  intros Ha Hb. unfold larger. destruct (JS.lt a b) eqn:Hlt.
  - split; [by apply lt_le | by apply le_refl].
  - split; [by apply le_refl | by apply not_lt_le].
Qed.

(** [foldl larger] computes the maximum of its start value and the list. *)
Lemma foldl_larger_max (start : JS.number) (l : list JS.number) :
  start <> JS.NaN -> Forall (fun n => n <> JS.NaN) l ->
  let r := foldl larger start l in
  JS.le start r = true
  /\ Forall (fun n => JS.le n r = true) l
  /\ (r = start \/ r ∈ l).
Proof.
  intros Hstart Hl. revert start Hstart.
  induction Hl as [|n l Hn _ IH]; intros start Hstart; simpl.
  - split; [by apply le_refl |]. split; [constructor | by left].
  - destruct (larger_upper_bound start n Hstart Hn) as [Hle_start Hle_n].
    destruct (IH (larger start n) (larger_not_NaN _ _ Hstart Hn)) as (Hle & Hall & Hmem).
    split; [by eapply le_trans |]. split.
    + constructor; [by eapply le_trans | done].
    + destruct Hmem as [-> | Hin]; [|right; by right].
      unfold larger. destruct (JS.lt start n); [right; by left | by left].
Qed.

(** On a series without a missing or NaN value, the highest consumption is
    the maximum of 0 and the values of the series: it is at least 0, at
    least every value, and is 0 or one of the values. *)
Lemma highest_of_numbers `{Host} (ioBudgetData : option InfraMonitoringData) :
  Forall (fun x => Number (field x "disk_io_consumption") <> JS.NaN)
         (default [] (data_of ioBudgetData)) ->
  let r := highestIoBudgetConsumption ioBudgetData in
  JS.le (JS.of_Z 0) r = true
  /\ Forall (fun x => JS.le (Number (field x "disk_io_consumption")) r = true)
            (default [] (data_of ioBudgetData))
  /\ (r = JS.of_Z 0
      \/ exists x, x ∈ default [] (data_of ioBudgetData)
                   /\ r = Number (field x "disk_io_consumption")).
Proof.
  intros Hpoints r. subst r. rewrite highest_unfold.
  revert Hpoints. generalize (default [] (data_of ioBudgetData)). intros points Hpoints.
  assert (Forall (fun n => n <> JS.NaN)
            (map (fun x => Number (field x "disk_io_consumption")) points ++ [JS.of_Z 0]))
    as Hvalues.
  { apply Forall_app. split; [by apply Forall_map | by repeat constructor]. }
  rewrite max_loop_foldl by done.
  destruct (foldl_larger_max JS.NegInfinity _ ltac:(done) Hvalues) as (_ & Hall & Hmem).
  apply Forall_app in Hall as [Hall Hzero]. apply Forall_map in Hall.
  rewrite Forall_singleton in Hzero.
  split; [done |]. split; [done |].
  destruct Hmem as [Heq | Hin].
  - rewrite Heq in Hzero. done.
  - apply elem_of_app in Hin as [Hin | Hin].
    + apply list_elem_of_fmap in Hin as (x & -> & Hx). right. by exists x.
    + apply list_elem_of_singleton in Hin. by left.
Qed.

(** C1, at a series the code mishandles.  The points carry 3, no value at
    all, and 7: the specification answers 7 (the missing value counts as
    0), the code answers NaN, whatever the host. *)
Theorem highest_with_missing_value `{Host} :
  let points :=
    [ Fixtures.point "2023-06-12T00:00:00.000Z" "disk_io_consumption" (JS.VNumber (JS.of_Z 3));
      {[ "period_start" := JS.VString "2023-06-13T00:00:00.000Z" ]};
      Fixtures.point "2023-06-14T00:00:00.000Z" "disk_io_consumption" (JS.VNumber (JS.of_Z 7)) ] in
  highestIoBudgetConsumption (Some {| series := Some points |}) = JS.NaN
  /\ spec_highestConsumption points = JS.of_Z 7.
Proof. split; reflexivity. Qed.

(** The example of the specification: the values 3, 7, 2 give 7, and an
    empty or unresolved series gives 0. *)
Lemma highest_examples `{Host} :
  highestIoBudgetConsumption
    (Some {| series := Some
       [ Fixtures.point "2023-06-12T00:00:00.000Z" "disk_io_consumption" (JS.VNumber (JS.of_Z 3));
         Fixtures.point "2023-06-13T00:00:00.000Z" "disk_io_consumption" (JS.VNumber (JS.of_Z 7));
         Fixtures.point "2023-06-14T00:00:00.000Z" "disk_io_consumption" (JS.VNumber (JS.of_Z 2)) ] |})
  = JS.of_Z 7
  /\ highestIoBudgetConsumption (Some {| series := Some [] |}) = JS.of_Z 0
  /\ highestIoBudgetConsumption None = JS.of_Z 0.
Proof. repeat split. Qed.

(** ** Chart bodies *)

(** Case analysis on the three comparisons of [attribute.key]. *)
Ltac case_keys a :=
  destruct (String.eqb (key a) "disk_io_consumption"),
           (String.eqb (key a) "ram_usage"),
           (String.eqb (key a) "max_cpu_usage").

Section ChartBodies.
Context `{Host} `{Collaborators}.

Lemma chartMeta_get_metric (props : InfrastructureProps) (k : string) :
  k ∈ metricKeys ->
  JS.get (d_chartMeta (derive props)) k = JS.Own (chartMetaEntry (metricQuery props k)).
Proof.
  unfold metricKeys. rewrite !elem_of_cons, elem_of_nil.
  intros [-> | [-> | [-> | []]]]; reflexivity.
Qed.

Lemma chartMeta_get_other (props : InfrastructureProps) (k : string) :
  k ∉ metricKeys ->
  JS.get (d_chartMeta (derive props)) k =
    if bool_decide (k ∈ JS.object_prototype_keys) then JS.Inherited else JS.Missing.
Proof.
  unfold metricKeys. rewrite !not_elem_of_cons. intros (Hcpu & Hram & Hio & _).
  unfold JS.get, derive, chartMeta. simpl.
  rewrite lookup_insert_ne by done. rewrite lookup_insert_ne by done.
  rewrite lookup_singleton_ne by done. done.
Qed.

Lemma chartBody_metric (props : InfrastructureProps) (a : CategoryAttribute) :
  key a ∈ metricKeys ->
  chartBody (derive props) a = JS.Normal (selectedBody a (metricQuery props (key a))).
Proof.
  intros Hkey. unfold chartBody, selectedBody. rewrite chartMeta_get_metric by done.
  simpl. destruct (query_isLoading (metricQuery props (key a))); [done |].
  by destruct (default [] (data_of (query_data (metricQuery props (key a))))).
Qed.

(** Without an entry in [chartMeta], and unless the key names a member of
    [Object.prototype], reading [isLoading] throws. *)
Lemma chartBody_other (props : InfrastructureProps) (a : CategoryAttribute) :
  key a ∉ metricKeys ->
  chartBody (derive props) a =
    if bool_decide (key a ∈ JS.object_prototype_keys) then JS.Normal NoDataPanel
    else JS.Throw (JS.TypeError "Cannot read properties of undefined (reading 'isLoading')").
Proof.
  intros Hkey. unfold chartBody. rewrite chartMeta_get_other by done.
  by destruct (bool_decide (key a ∈ JS.object_prototype_keys)).
Qed.

Lemma chartBodies_app (els els' : list Element) :
  chartBodies (els ++ els') = (chartBodies els ++ chartBodies els')%list.
Proof. apply omap_app. Qed.

Lemma chartBodies_descriptionBlock (d : Derived) (a : CategoryAttribute) :
  chartBodies (descriptionBlock d a) = [].
Proof.
  unfold descriptionBlock. rewrite !chartBodies_app.
  assert (forall (l : list string) (n : nat),
            chartBodies (imap (fun i => Paragraph (n + i)) l) = []) as Hparagraphs.
  { induction l as [|p l IH]; intros n; [done |]. simpl.
    rewrite <- (IH (S n)). f_equal. apply imap_ext. intros i x _. simpl. f_equal. lia. }
  rewrite (Hparagraphs _ 0%nat).
  by case_keys a.
Qed.

Lemma chartBodies_renderAttribute (d : Derived) (a : CategoryAttribute) (body : ChartBody) :
  chartBody d a = JS.Normal body ->
  exists sec, renderAttribute d a = JS.Normal sec
              /\ section sec = a /\ chartBodies (children sec) = [body].
Proof.
  intros Hbody. unfold renderAttribute. rewrite Hbody.
  eexists. split; [reflexivity |]. split; [done |]. cbn [children].
  rewrite !chartBodies_app, chartBodies_descriptionBlock.
  by case_keys a.
Qed.

End ChartBodies.

(** C5.  The section of each of the three metrics renders, with exactly one
    chart body: the one selected from that metric's own query (placeholder
    while loading, empty-state panel for an empty series, bar chart
    otherwise).  Collaborators that answer that metric's query alike give
    the same chart body, whatever they answer for the other two metrics. *)
Theorem chart_body_per_metric `{Host} (C C' : Collaborators)
    (props : InfrastructureProps) (a : CategoryAttribute) :
  key a ∈ metricKeys ->
  (exists sec,
     renderAttribute (@derive _ C props) a = JS.Normal sec
     /\ chartBodies (children sec) = [selectedBody a (@metricQuery _ C props (key a))])
  /\ (@metricQuery _ C props (key a) = @metricQuery _ C' props (key a) ->
      chartBody (@derive _ C props) a = chartBody (@derive _ C' props) a).
Proof.
  intros Hkey. split.
  - destruct (chartBodies_renderAttribute (@derive _ C props) a _
                (@chartBody_metric _ C props a Hkey)) as (sec & Hsec & _ & Hbodies).
    by exists sec.
  - intros Hsame. rewrite !chartBody_metric by done. by rewrite Hsame.
Qed.

(** CPU still loading, memory resolved and empty, disk IO resolved with two
    points: three different chart bodies in one render. *)
Lemma chart_body_per_metric_witness :
  let C := Fixtures.collaborators [] None [] in
  let d := @derive Fixtures.host C (Fixtures.props None None) in
  (exists sec, renderAttribute d Fixtures.cpuAttribute = JS.Normal sec
               /\ chartBodies (children sec) = [ShimmeringLoaders])
  /\ (exists sec, renderAttribute d Fixtures.ramAttribute = JS.Normal sec
                  /\ chartBodies (children sec) = [NoDataPanel])
  /\ (exists sec, renderAttribute d Fixtures.diskIoAttribute = JS.Normal sec
                  /\ chartBodies (children sec)
                     = [UsageBarChart
                          {| chart_name := "Disk IO bandwidth"; chart_unit := "percentage";
                             chart_attribute := "disk_io_consumption";
                             chart_data := Fixtures.ioSeries; chart_yLimit := 100 |}]).
Proof.
  intros C d.
  pose proof (@chart_body_per_metric Fixtures.host C C (Fixtures.props None None)) as Hthm.
  split; [|split].
  - apply (Hthm Fixtures.cpuAttribute). apply (bool_decide_unpack _). reflexivity.
  - apply (Hthm Fixtures.ramAttribute). apply (bool_decide_unpack _). reflexivity.
  - apply (Hthm Fixtures.diskIoAttribute). apply (bool_decide_unpack _). reflexivity.
Defined.

(** ** Rendering as a whole *)

Lemma map_throwing_throw {A B : Type} (f : A -> JS.completion B) (l : list A)
    (a : A) (e : JS.error) :
  a ∈ l -> f a = JS.Throw e ->
  (forall a' e', a' ∈ l -> f a' = JS.Throw e' -> e' = e) ->
  JS.map_throwing f l = JS.Throw e.
Proof.
  induction l as [|b rest IH]; intros Ha Hthrow Hsame; [by apply elem_of_nil in Ha |].
  simpl. destruct (f b) as [x|e'] eqn:Hb.
  - apply elem_of_cons in Ha as [-> | Ha]; [congruence |].
    simpl. rewrite IH; [done | done | done |].
    intros a' e'' Ha'. apply Hsame. by right.
  - simpl. f_equal. apply (Hsame b); [by left | done].
Qed.

Lemma map_throwing_inv {A B : Type} (f : A -> JS.completion B) (l : list A) (bs : list B) :
  JS.map_throwing f l = JS.Normal bs ->
  forall b, b ∈ bs -> exists a, a ∈ l /\ f a = JS.Normal b.
Proof.
  revert bs. induction l as [|a rest IH]; intros bs Hmap b Hb.
  - injection Hmap as <-. by apply elem_of_nil in Hb.
  - simpl in Hmap. destruct (f a) as [x|] eqn:Ha; [|done]. simpl in Hmap.
    destruct (JS.map_throwing f rest) as [xs|]; [|done]. injection Hmap as <-.
    apply elem_of_cons in Hb as [-> | Hb].
    + exists a. split; [by left | done].
    + destruct (IH xs eq_refl b Hb) as (a' & Ha' & Hfa'). exists a'. split; [by right | done].
Qed.

Section Rendering.
Context `{Host} `{Collaborators}.

Lemma categoryMeta_none :
  categoryMeta = None <->
  forall category, category ∈ USAGE_CATEGORIES -> category_key category <> "infra".
Proof.
  unfold categoryMeta. rewrite find_none_iff. split.
  - intros Hfind category Hin. by apply String.eqb_neq, Hfind.
  - intros Hkeys category Hin. by apply String.eqb_neq, Hkeys.
Qed.

(** With the three metric keys only, the render completes. *)
Lemma Infrastructure_renders (props : InfrastructureProps) (meta : CategoryMeta) :
  categoryMeta = Some meta ->
  (forall a, a ∈ attributes meta -> key a ∈ metricKeys) ->
  exists sections,
    Infrastructure props
    = JS.Normal (Fragment (category_name meta) (category_description meta) sections)
    /\ map section sections = attributes meta.
Proof.
  intros Hmeta Hkeys. unfold Infrastructure. rewrite Hmeta.
  assert (exists g, (forall a, a ∈ attributes meta ->
                       renderAttribute (derive props) a = JS.Normal (g a))
                    /\ forall a, a ∈ attributes meta -> section (g a) = a)
    as (g & Hg & Hsection).
  { exists (fun a =>
      match renderAttribute (derive props) a with
      | JS.Normal sec => sec
      | JS.Throw _ => {| section_id := anchor a; section_key := key a;
                         section := a; children := [] |}
      end).
    split; intros a Ha;
      destruct (chartBodies_renderAttribute (derive props) a _
                  (chartBody_metric props a (Hkeys a Ha))) as (sec & -> & Hsec & _); done. }
  rewrite (map_throwing_normal _ g) by done. eexists. split; [reflexivity |].
  rewrite map_map. rewrite <- (map_id (attributes meta)) at 2.
  apply map_ext_in. intros a Ha. apply Hsection. by apply list_elem_of_In.
Qed.

(** An attribute without an entry in [chartMeta] makes the whole render
    throw. *)
Lemma Infrastructure_throws (props : InfrastructureProps) (meta : CategoryMeta)
    (a : CategoryAttribute) :
  categoryMeta = Some meta ->
  a ∈ attributes meta ->
  key a ∉ metricKeys -> key a ∉ JS.object_prototype_keys ->
  Infrastructure props
  = JS.Throw (JS.TypeError "Cannot read properties of undefined (reading 'isLoading')").
Proof.
  intros Hmeta Ha Hmetric Hproto. unfold Infrastructure. rewrite Hmeta.
  rewrite (map_throwing_throw _ _ a
             (JS.TypeError "Cannot read properties of undefined (reading 'isLoading')"));
    [done | done | |].
  - unfold renderAttribute. rewrite chartBody_other by done.
    by rewrite bool_decide_eq_false_2.
  - intros a' e' _. unfold renderAttribute, chartBody.
    destruct (JS.get (d_chartMeta (derive props)) (key a')); simpl; congruence.
Qed.

End Rendering.

(** C2, at a catalog the code mishandles.  The "infra" category lists an
    attribute, [swap_usage], for which the component issues no query: the
    render does not show an empty-state panel for it, it throws. *)
Theorem render_throws_without_data_source :
  @Infrastructure Fixtures.host
    (Fixtures.collaborators
       [ Fixtures.bandwidthCategory;
         Fixtures.infraCategory
           [ Fixtures.cpuAttribute; Fixtures.swapAttribute; Fixtures.diskIoAttribute ] ]
       None [])
    (Fixtures.props None None)
  = JS.Throw (JS.TypeError "Cannot read properties of undefined (reading 'isLoading')").
Proof. reflexivity. Qed.

(** C8.  Without a category of key "infra" in the catalog the component
    returns [null]: no header, no section, no exception. *)
Theorem no_infra_category_renders_null `{Host} `{Collaborators}
    (props : InfrastructureProps) :
  (forall category, category ∈ USAGE_CATEGORIES -> category_key category <> "infra") ->
  Infrastructure props = JS.Normal RenderNull.
Proof.
  intros Hkeys. apply categoryMeta_none in Hkeys. unfold Infrastructure. by rewrite Hkeys.
Qed.

Lemma no_infra_category_renders_null_witness :
  @Infrastructure Fixtures.host
    (Fixtures.collaborators [Fixtures.bandwidthCategory] None [])
    (Fixtures.props None None)
  = JS.Normal RenderNull.
Proof.
  apply (@no_infra_category_renders_null Fixtures.host
           (Fixtures.collaborators [Fixtures.bandwidthCategory] None [])).
  intros category Hin. apply list_elem_of_In in Hin. simpl in Hin.
  destruct Hin as [<- | []]. discriminate.
Defined.

(** ** Compute specs *)

(** C6.  When no selected add-on is a compute instance, the compute specs
    are the fixed default: baseline disk IO 87 Mbps, maximum disk IO 2085
    Mbps, 2 CPU cores, dedicated CPU, 1 GB of memory. *)
Theorem default_compute_specs (addons : option ProjectAddons) :
  (forall addon, addon ∈ selectedAddons addons -> addon_type addon <> "compute_instance") ->
  currentComputeInstanceSpecs (getAddons (selectedAddons addons))
  = {| baseline_disk_io_mbs := Some (JS.of_Z 87);
       max_disk_io_mbs := Some (JS.of_Z 2085);
       cpu_cores := Some (JS.of_Z 2);
       cpu_dedicated := Some true;
       memory_gb := Some (JS.of_Z 1) |}.
Proof.
  intros Hnone. unfold getAddons.
  assert (List.find (fun addon => String.eqb (addon_type addon) "compute_instance")
            (selectedAddons addons) = None) as ->; [|done].
  apply find_none_iff. intros addon Hin. by apply String.eqb_neq, Hnone.
Qed.

Lemma default_compute_specs_witness :
  currentComputeInstanceSpecs
    (getAddons (selectedAddons (Some {| selected_addons := Some [Fixtures.pitrAddon] |})))
  = {| baseline_disk_io_mbs := Some (JS.of_Z 87);
       max_disk_io_mbs := Some (JS.of_Z 2085);
       cpu_cores := Some (JS.of_Z 2);
       cpu_dedicated := Some true;
       memory_gb := Some (JS.of_Z 1) |}.
Proof.
  apply (default_compute_specs (Some {| selected_addons := Some [Fixtures.pitrAddon] |})).
  intros addon Hin. apply list_elem_of_In in Hin. simpl in Hin.
  destruct Hin as [<- | []]. discriminate.
Defined.

Lemma strict_eq_sym (a b : option JS.number) : JS.strict_eq a b = JS.strict_eq b a.
Proof.
  destruct a as [[| |x|]|], b as [[| |y|]|]; try done. simpl.
  unfold Qccompare. rewrite <- (Qcompare_antisym y x). by destruct (y ?= x)%Q.
Qed.

(** ** Plan flag *)

Lemma isFreePlan_false (subscription : option Subscription) :
  (forall p, subscription ≫= plan = Some p -> plan_id p <> "free") ->
  isFreePlan subscription = false.
Proof.
  intros Hplan. unfold isFreePlan. destruct subscription as [sub|]; [|done].
  simpl in Hplan. destruct (plan sub) as [p|]; [|done].
  by apply String.eqb_neq, Hplan.
Qed.

Lemma renderAttribute_children (d : Derived) (a : CategoryAttribute)
    (sec : AttributeSection) :
  renderAttribute d a = JS.Normal sec ->
  exists body,
    chartBody d a = JS.Normal body
    /\ children sec =
         ((if String.eqb (key a) "disk_io_consumption" then diskIoBlock d else [])
          ++ (if String.eqb (key a) "max_cpu_usage"
              then [ CPUWarnings (d_isFreePlan d) (d_upgradeUrl d)
                       (d_warnings d ≫= cpu_exhaustion) ]
              else [])
          ++ (if String.eqb (key a) "ram_usage"
              then [ RAMWarnings (d_isFreePlan d) (d_upgradeUrl d)
                       (d_warnings d ≫= memory_and_swap_exhaustion) ]
              else [])
          ++ descriptionBlock d a
          ++ [ Chart body ])%list.
Proof.
  unfold renderAttribute. destruct (chartBody d a) as [body|]; [|done].
  intros [= <-]. by exists body.
Qed.

Lemma isFreePlanProp_children (d : Derived) (a : CategoryAttribute)
    (sec : AttributeSection) (el : Element) (flag : bool) :
  renderAttribute d a = JS.Normal sec ->
  el ∈ children sec -> isFreePlanProp el = Some flag -> flag = d_isFreePlan d.
Proof.
  intros (body & _ & ->)%renderAttribute_children. rewrite !elem_of_app.
  unfold diskIoBlock.
  intros [Hio | [Hcpu | [Hram | [Hdescr | Hchart]]]].
  - destruct (String.eqb (key a) "disk_io_consumption"); [|by apply elem_of_nil in Hio].
    apply list_elem_of_In in Hio. simpl in Hio.
    destruct Hio as [<- | [<- | [<- | []]]]; simpl; congruence.
  - destruct (String.eqb (key a) "max_cpu_usage"); [|by apply elem_of_nil in Hcpu].
    apply list_elem_of_singleton in Hcpu as ->. simpl. congruence.
  - destruct (String.eqb (key a) "ram_usage"); [|by apply elem_of_nil in Hram].
    apply list_elem_of_singleton in Hram as ->. simpl. congruence.
  - unfold descriptionBlock in Hdescr. rewrite !elem_of_app in Hdescr.
    destruct Hdescr as [Hhead | [Hmem | [Hcores | Hpara]]].
    + apply list_elem_of_singleton in Hhead as ->. done.
    + destruct (String.eqb (key a) "ram_usage"); [|by apply elem_of_nil in Hmem].
      apply list_elem_of_singleton in Hmem as ->. done.
    + destruct (String.eqb (key a) "max_cpu_usage"); [|by apply elem_of_nil in Hcores].
      apply list_elem_of_singleton in Hcores as ->. done.
    + apply elem_of_lookup_imap in Hpara as (i & text & -> & _). done.
  - apply list_elem_of_singleton in Hchart as ->. done.
Qed.

(** C10.  When the subscription is unresolved, has no plan, or has a plan
    other than 'free', [isFreePlan] is false, and so is the [isFreePlan]
    prop of every warning component of every rendered section. *)
Theorem isFreePlan_false_without_free_plan `{Host} `{Collaborators}
    (props : InfrastructureProps) :
  (forall p, useProjectSubscriptionV2Query (projectRef props) ≫= plan = Some p ->
             plan_id p <> "free") ->
  isFreePlan (useProjectSubscriptionV2Query (projectRef props)) = false
  /\ forall title description sections sec el flag,
       Infrastructure props = JS.Normal (Fragment title description sections) ->
       sec ∈ sections -> el ∈ children sec -> isFreePlanProp el = Some flag ->
       flag = false.
Proof.
  intros Hplan. pose proof (isFreePlan_false _ Hplan) as Hfalse. split; [done |].
  intros title description sections sec el flag Hrender Hsec Hel Hflag.
  unfold Infrastructure in Hrender. destruct categoryMeta as [meta|]; [|done].
  destruct (JS.map_throwing (renderAttribute (derive props)) (attributes meta))
    as [rendered|] eqn:Hmap; [|done].
  injection Hrender as _ _ <-.
  destruct (map_throwing_inv _ _ _ Hmap sec Hsec) as (a & _ & Ha).
  rewrite (isFreePlanProp_children _ _ _ _ _ Ha Hel Hflag). exact Hfalse.
Qed.

Lemma isFreePlan_false_without_free_plan_witness :
  let catalog :=
    [ Fixtures.infraCategory
        [ Fixtures.cpuAttribute; Fixtures.ramAttribute; Fixtures.diskIoAttribute ] ] in
  let rendered subscription :=
    exists title description sections,
      @Infrastructure Fixtures.host (Fixtures.collaborators catalog subscription [])
        (Fixtures.props None None)
      = JS.Normal (Fragment title description sections)
      /\ length sections = 3%nat
      /\ forall sec el flag,
           sec ∈ sections -> el ∈ children sec -> isFreePlanProp el = Some flag ->
           flag = false in
  rendered (Some {| plan := Some {| plan_id := "pro" |} |}) /\ rendered None.
Proof.
  intros catalog rendered. split.
  - destruct (@isFreePlan_false_without_free_plan Fixtures.host
                (Fixtures.collaborators catalog (Some {| plan := Some {| plan_id := "pro" |} |}) [])
                (Fixtures.props None None)) as [_ Hflags].
    { intros p [= <-]. discriminate. }
    do 3 eexists. split; [reflexivity |]. split; [reflexivity |].
    intros sec el flag. exact (Hflags _ _ _ sec el flag eq_refl).
  - destruct (@isFreePlan_false_without_free_plan Fixtures.host
                (Fixtures.collaborators catalog None []) (Fixtures.props None None))
      as [_ Hflags].
    { intros p [=]. }
    do 3 eexists. split; [reflexivity |]. split; [reflexivity |].
    intros sec el flag. exact (Hflags _ _ _ sec el flag eq_refl).
Defined.

(** The example of the specification for the latest consumption: a series
    ending with 9 and a range ending today give 9; a range ending
    yesterday gives 0. *)
Lemma latest_examples :
  let ioBudgetData := Some {| series := Some Fixtures.ioSeries |} in
  @hasLatest Fixtures.host (Some "2023-06-15T23:59:59.999Z") = true
  /\ @latestIoBudgetConsumption Fixtures.host true ioBudgetData = JS.of_Z 9
  /\ @hasLatest Fixtures.host (Some "2023-06-14T23:59:59.999Z") = false
  /\ @latestIoBudgetConsumption Fixtures.host false ioBudgetData = JS.of_Z 0
  /\ @hasLatest Fixtures.host (Some "2023-06-15T00:00:00.000Z") = false.
Proof. repeat split. Qed.

(** * Further properties of the component *)

(** ** Splitting the chart description *)

Lemma split_not_nil (sep : ascii) (s : string) : JS.split sep s <> [].
Proof.
  destruct s as [|c rest]; [done |]. simpl.
  destruct (Ascii.eqb c sep); [done |]. by destruct (JS.split sep rest).
Qed.

Lemma join_cons_String (sep c : ascii) (piece : string) (pieces : list string) :
  join sep (String c piece :: pieces) = String c (join sep (piece :: pieces)).
Proof. by destruct pieces. Qed.

Lemma join_split (sep : ascii) (s : string) : join sep (JS.split sep s) = s.
Proof.
  induction s as [|c rest IH]; [done |].
  cbn [JS.split]. destruct (Ascii.eqb_spec c sep) as [-> | Hc].
  - pose proof (split_not_nil sep rest) as Hne.
    destruct (JS.split sep rest) as [|piece pieces] eqn:Hsplit; [done |].
    change (join sep (EmptyString :: piece :: pieces))
      with (EmptyString +:+ String sep (join sep (piece :: pieces))).
    by rewrite IH.
  - pose proof (split_not_nil sep rest) as Hne.
    destruct (JS.split sep rest) as [|piece pieces] eqn:Hsplit; [done |].
    by rewrite join_cons_String, IH.
Qed.

Lemma split_pieces_free (sep : ascii) (s : string) :
  Forall (fun piece => contains sep piece = false) (JS.split sep s).
Proof.
  induction s as [|c rest IH]; [by repeat constructor |].
  cbn [JS.split]. destruct (Ascii.eqb c sep) eqn:Hc.
  - by constructor.
  - destruct (JS.split sep rest) as [|piece pieces].
    { constructor; [simpl; by rewrite Hc | constructor]. }
    inversion IH as [|? ? Hpiece Hpieces]; subst.
    constructor; [|done]. simpl. by rewrite Hc, Hpiece.
Qed.

Lemma omap_imap_Some {A B C : Type} (f : B -> option C) (g : nat -> A -> B)
    (h : nat -> A -> C) (l : list A) :
  (forall i x, f (g i x) = Some (h i x)) -> omap f (imap g l) = imap h l.
Proof.
  revert g h. induction l as [|x l IH]; intros g h Hfg; [done |].
  simpl. rewrite Hfg. f_equal. apply IH. intros i y. apply Hfg.
Qed.

Lemma omap_imap_None {A B C : Type} (f : B -> option C) (g : nat -> A -> B) (l : list A) :
  (forall i x, f (g i x) = None) -> omap f (imap g l) = [].
Proof.
  revert g. induction l as [|x l IH]; intros g Hfg; [done |].
  simpl. rewrite Hfg. apply IH. intros i y. apply Hfg.
Qed.

(** X12.  The description of an attribute is rendered as one paragraph per
    line: the paragraphs are numbered from 0 in order, there is at least
    one, none contains a line break, and joined by line breaks they give
    [chartDescription] back. *)
Theorem description_paragraphs (d : Derived) (a : CategoryAttribute)
    (sec : AttributeSection) :
  renderAttribute d a = JS.Normal sec ->
  exists texts,
    paragraphs (children sec) = imap (fun idx text => (idx, text)) texts
    /\ texts <> []
    /\ Forall (fun text => contains "010"%char text = false) texts
    /\ join "010"%char texts = chartDescription a.
Proof.
  intros (body & _ & Hchildren)%renderAttribute_children.
  exists (JS.split "010"%char (chartDescription a)).
  split; [|split; [apply split_not_nil | split; [apply split_pieces_free | apply join_split]]].
  rewrite Hchildren. unfold paragraphs, diskIoBlock, descriptionBlock.
  rewrite !omap_app.
  rewrite (omap_imap_Some _ _ (fun idx text => (idx, text))) by done.
  case_keys a; simpl; by rewrite app_nil_r.
Qed.

Lemma description_paragraphs_witness :
  let d := @derive Fixtures.host (Fixtures.collaborators [] None []) (Fixtures.props None None) in
  exists sec texts,
    renderAttribute d Examples.twoParagraphs = JS.Normal sec
    /\ paragraphs (children sec) = imap (fun idx text => (idx, text)) texts
    /\ length (paragraphs (children sec)) = 2%nat
    /\ join "010"%char texts = chartDescription Examples.twoParagraphs.
Proof.
  intros d. destruct (renderAttribute d Examples.twoParagraphs) as [sec|] eqn:Hsec.
  - destruct (description_paragraphs d Examples.twoParagraphs sec Hsec)
      as (texts & Hpar & _ & _ & Hjoin).
    exists sec, texts. split; [done |]. split; [done |]. split; [|done].
    injection Hsec as <-. reflexivity.
  - discriminate Hsec.
Defined.

(** ** The two disk IO scalars *)

Lemma NaN_free_or_not (values : list JS.number) :
  Forall (fun n => n <> JS.NaN) values \/ JS.NaN ∈ values.
Proof.
  induction values as [|n values [IH | IH]].
  - left. constructor.
  - destruct n; [right; by left | left; by constructor..].
  - right. by right.
Qed.

(** X1.  The highest consumption is NaN exactly when the series has a point
    whose value does not convert to a number (a missing value, NaN itself). *)
Theorem highest_is_NaN_iff `{Host} (ioBudgetData : option InfraMonitoringData) :
  highestIoBudgetConsumption ioBudgetData = JS.NaN
  <-> exists x, x ∈ default [] (data_of ioBudgetData)
                /\ Number (field x "disk_io_consumption") = JS.NaN.
Proof.
  split.
  - intros Hnan.
    destruct (NaN_free_or_not
                (map (fun x => Number (field x "disk_io_consumption"))
                     (default [] (data_of ioBudgetData)))) as [Hfree | Hin].
    + pose proof (proj1 (Forall_map (fun x => Number (field x "disk_io_consumption"))
                                    (fun n => n <> JS.NaN) _) Hfree) as Hpoints.
      destruct (highest_of_numbers ioBudgetData Hpoints) as [Hzero _].
      rewrite Hnan in Hzero. done.
    + apply list_elem_of_fmap in Hin as (x & Hx & Hin). by exists x.
  - intros (x & Hin & Hx). by eapply highest_NaN.
Qed.

(** X2.  On a series whose values all convert to numbers, the highest
    consumption is the least number that is at least 0 and at least every
    value of the series. *)
Theorem highest_least_upper_bound `{Host} (ioBudgetData : option InfraMonitoringData) :
  Forall (fun x => Number (field x "disk_io_consumption") <> JS.NaN)
         (default [] (data_of ioBudgetData)) ->
  let r := highestIoBudgetConsumption ioBudgetData in
  JS.le (JS.of_Z 0) r = true
  /\ (forall x, x ∈ default [] (data_of ioBudgetData) ->
                JS.le (Number (field x "disk_io_consumption")) r = true)
  /\ (forall bound,
        JS.le (JS.of_Z 0) bound = true ->
        (forall x, x ∈ default [] (data_of ioBudgetData) ->
                   JS.le (Number (field x "disk_io_consumption")) bound = true) ->
        JS.le r bound = true).
Proof.
  intros Hfree r. destruct (highest_of_numbers ioBudgetData Hfree) as (Hzero & Hall & Hmem).
  fold r in Hzero, Hall, Hmem. split; [done |]. split.
  - intros x Hx. by eapply Forall_forall in Hall.
  - intros bound Hbound Hupper. destruct Hmem as [-> | (x & Hx & ->)]; [done |].
    by apply Hupper.
Qed.

Lemma highest_least_upper_bound_witness :
  let ioBudgetData := Some {| series := Some Fixtures.ioSeries |} in
  JS.le (JS.of_Z 0) (@highestIoBudgetConsumption Fixtures.host ioBudgetData) = true
  /\ JS.le (@highestIoBudgetConsumption Fixtures.host ioBudgetData) (JS.of_Z 9) = true.
Proof.
  intros ioBudgetData.
  destruct (@highest_least_upper_bound Fixtures.host ioBudgetData) as (Hzero & _ & Hleast).
  { repeat constructor; discriminate. }
  split; [exact Hzero |]. apply Hleast; [reflexivity |].
  intros x Hx. apply list_elem_of_In in Hx. simpl in Hx.
  destruct Hx as [<- | [<- | []]]; reflexivity.
Defined.

(** X3.  On a series whose values all convert to numbers, the latest
    consumption never exceeds the highest consumption, whether or not the
    range includes today. *)
Theorem latest_le_highest `{Host} (latest : bool)
    (ioBudgetData : option InfraMonitoringData) :
  Forall (fun x => Number (field x "disk_io_consumption") <> JS.NaN)
         (default [] (data_of ioBudgetData)) ->
  JS.le (latestIoBudgetConsumption latest ioBudgetData)
        (highestIoBudgetConsumption ioBudgetData) = true.
Proof.
  intros Hfree. destruct (highest_of_numbers ioBudgetData Hfree) as (Hzero & Hall & _).
  rewrite latest_unfold.
  destruct (last (default [] (data_of ioBudgetData))) as [point|] eqn:Hlast; [|done].
  destruct latest; [|done].
  apply last_Some in Hlast as (before & Hsplit).
  eapply Forall_forall in Hall; [exact Hall |].
  rewrite Hsplit. apply elem_of_app. right. by left.
Qed.

Lemma latest_le_highest_witness :
  let ioBudgetData := Some {| series := Some Fixtures.ioSeries |} in
  JS.le (@latestIoBudgetConsumption Fixtures.host true ioBudgetData)
        (@highestIoBudgetConsumption Fixtures.host ioBudgetData) = true.
Proof.
  intros ioBudgetData. apply (@latest_le_highest Fixtures.host).
  repeat constructor; discriminate.
Defined.

(** ** Dates *)

(** X4.  [hasLatest] is monotone in the end of the range: when it holds
    for a valid [endDate], it holds for every valid [endDate] that is not
    earlier; when it holds without an [endDate], it holds for every valid
    [endDate] that is not before the current instant. *)
Theorem hasLatest_monotone `{Host} (later : string) (t' : Z) :
  dayjs_parse later = Some t' ->
  (forall earlier t,
     dayjs_parse earlier = Some t -> t <= t' ->
     hasLatest (Some earlier) = true -> hasLatest (Some later) = true)
  /\ (Date_now <= t' -> hasLatest None = true -> hasLatest (Some later) = true).
Proof.
  intros Hlater. split.
  - intros earlier t Hearlier Hle (t0 & Ht0 & Hlt)%hasLatest_iff.
    cbn [Dayjs.dayjs] in Ht0. rewrite Hearlier in Ht0. injection Ht0 as <-.
    apply hasLatest_iff. exists t'. split; [done | lia].
  - intros Hle (t0 & [= <-] & Hlt)%hasLatest_iff.
    apply hasLatest_iff. exists t'. split; [done | lia].
Qed.

Lemma hasLatest_monotone_witness :
  @hasLatest Examples.fallBackHost (Some "2023-11-05T04:15:00.000Z") = true
  /\ @hasLatest Examples.fallBackHost (Some "2023-11-05T12:00:00.000Z") = true
  /\ @hasLatest Fixtures.host (Some "2023-06-16T00:00:00.000Z") = true.
Proof.
  split; [reflexivity |]. split.
  - apply (proj1 (@hasLatest_monotone Examples.fallBackHost
                    "2023-11-05T12:00:00.000Z" 1699185600000 eq_refl)
             "2023-11-05T04:15:00.000Z" 1699157700000 eq_refl); [discriminate | reflexivity].
  - apply (proj2 (@hasLatest_monotone Fixtures.host
                    "2023-06-16T00:00:00.000Z" 1686873600000 eq_refl));
      [discriminate | reflexivity].
Defined.

(** X5.  A range whose end is not after its start selects the hourly
    interval, however far apart the two bounds are. *)
Theorem interval_swapped_bounds `{Host} (startDate endDate : option string) (ts te : Z) :
  present startDate ts -> present endDate te -> te <= ts ->
  interval startDate endDate = ("1h", "h a").
Proof.
  intros Hs He Hle. rewrite (interval_of_present _ _ ts te Hs He).
  assert (Z.quot (te - ts) Dayjs.MILLISECONDS_A_HOUR <= 48) as Hquot.
  { apply quot_hours_le_48. unfold Dayjs.MILLISECONDS_A_HOUR. lia. }
  by apply Z.leb_le in Hquot as ->.
Qed.

Lemma interval_swapped_bounds_witness :
  @interval Fixtures.host (Some "2023-06-30T00:00:00.000Z") (Some "2023-06-01T00:00:00.000Z")
  = ("1h", "h a").
Proof.
  apply (@interval_swapped_bounds Fixtures.host _ _ 1688083200000 1685577600000).
  - eexists. split; [reflexivity |]. split; [discriminate | reflexivity].
  - eexists. split; [reflexivity |]. split; [discriminate | reflexivity].
  - discriminate.
Defined.

(** ** The sections of a render *)

Lemma map_throwing_Forall2 {A B : Type} (f : A -> JS.completion B) (l : list A)
    (bs : list B) :
  JS.map_throwing f l = JS.Normal bs -> Forall2 (fun a b => f a = JS.Normal b) l bs.
Proof.
  revert bs. induction l as [|a rest IH]; intros bs Hmap.
  - injection Hmap as <-. constructor.
  - simpl in Hmap. destruct (f a) as [x|] eqn:Ha; [|done]. simpl in Hmap.
    destruct (JS.map_throwing f rest) as [xs|]; [|done]. injection Hmap as <-.
    constructor; [done | by apply IH].
Qed.

Lemma map_throwing_throw_inv {A B : Type} (f : A -> JS.completion B) (l : list A)
    (e : JS.error) :
  JS.map_throwing f l = JS.Throw e -> exists a, a ∈ l /\ f a = JS.Throw e.
Proof.
  induction l as [|a rest IH]; intros Hmap; [done |].
  simpl in Hmap. destruct (f a) as [x|e'] eqn:Ha; simpl in Hmap.
  - destruct (JS.map_throwing f rest) as [xs|e'']; [done |]. injection Hmap as ->.
    destruct (IH eq_refl) as (a' & Hin & Ha'). exists a'. split; [by right | done].
  - injection Hmap as ->. exists a. split; [by left | done].
Qed.

Lemma renderAttribute_header (d : Derived) (a : CategoryAttribute) (sec : AttributeSection) :
  renderAttribute d a = JS.Normal sec ->
  section_id sec = anchor a /\ section_key sec = key a /\ section sec = a.
Proof.
  unfold renderAttribute. destruct (chartBody d a) as [body|]; [|done].
  by intros [= <-].
Qed.

(** Where a child of a section comes from. *)
Lemma children_elem (d : Derived) (a : CategoryAttribute) (sec : AttributeSection)
    (el : Element) :
  renderAttribute d a = JS.Normal sec ->
  el ∈ children sec <->
    (key a = "disk_io_consumption" /\ el ∈ diskIoBlock d)
    \/ (key a = "max_cpu_usage"
        /\ el = CPUWarnings (d_isFreePlan d) (d_upgradeUrl d) (d_warnings d ≫= cpu_exhaustion))
    \/ (key a = "ram_usage"
        /\ el = RAMWarnings (d_isFreePlan d) (d_upgradeUrl d)
                  (d_warnings d ≫= memory_and_swap_exhaustion))
    \/ el ∈ descriptionBlock d a
    \/ chartBody d a = JS.Normal (match el with Chart body => body | _ => NoDataPanel end)
       /\ (exists body, el = Chart body).
Proof.
  intros (body & Hbody & ->)%renderAttribute_children. rewrite !elem_of_app.
  destruct (String.eqb_spec (key a) "disk_io_consumption") as [Hio | Hio];
    destruct (String.eqb_spec (key a) "max_cpu_usage") as [Hcpu | Hcpu];
    destruct (String.eqb_spec (key a) "ram_usage") as [Hram | Hram];
    rewrite ?list_elem_of_singleton, ?elem_of_nil; split;
    try (intros [? | [? | [? | [? | ->]]]]; [tauto.. | right; right; right; right; eauto]);
    try (intros [[? ?] | [[? ?] | [[? ?] | [? | [Hb [b ->]]]]]];
         [tauto.. | rewrite Hbody in Hb; injection Hb as ->; tauto]).
Qed.

Lemma descriptionBlock_elem (d : Derived) (a : CategoryAttribute) (el : Element) :
  el ∈ descriptionBlock d a <->
    el = ChartHeading
           (if String.eqb (key a) "disk_io_consumption"
            then DiskIOConsumedPer (period (d_interval d))
            else MaxUtilizationPer (name a) (String.eqb (key a) "ram_usage")
                                   (period (d_interval d)))
    \/ (key a = "ram_usage"
        /\ el = MemoryNote (memory_gb (d_specs d))
                  (JS.strict_eq (memory_gb (d_specs d)) (Some (JS.of_Z 1))))
    \/ (key a = "max_cpu_usage" /\ el = CpuCoresNote (cpu_cores (d_specs d)))
    \/ (exists idx text,
          JS.split "010"%char (chartDescription a) !! idx = Some text
          /\ el = Paragraph idx text).
Proof.
  unfold descriptionBlock. rewrite !elem_of_app, list_elem_of_singleton, elem_of_lookup_imap.
  destruct (String.eqb_spec (key a) "ram_usage") as [Hram | Hram];
    destruct (String.eqb_spec (key a) "max_cpu_usage") as [Hcpu | Hcpu];
    rewrite ?list_elem_of_singleton, ?elem_of_nil; split;
    try (intros [? | [? | [? | (idx & text & ? & ?)]]]; [tauto.. | eauto 10]);
    try (intros [? | [[? ?] | [[? ?] | (idx & text & ? & ?)]]]; [tauto.. | eauto 10]).
Qed.

Section Sections.
Context `{Host} `{Collaborators}.

Lemma Infrastructure_fragment_inv (props : InfrastructureProps) (title description : string)
    (sections : list AttributeSection) :
  Infrastructure props = JS.Normal (Fragment title description sections) ->
  exists meta,
    categoryMeta = Some meta
    /\ title = category_name meta /\ description = category_description meta
    /\ Forall2 (fun a sec => renderAttribute (derive props) a = JS.Normal sec)
               (attributes meta) sections.
Proof.
  unfold Infrastructure. destruct categoryMeta as [meta|]; [|done].
  destruct (JS.map_throwing (renderAttribute (derive props)) (attributes meta))
    as [rendered|] eqn:Hmap; [|done].
  intros [= <- <- <-]. exists meta. repeat split; try done.
  by apply map_throwing_Forall2.
Qed.

Lemma Infrastructure_section (props : InfrastructureProps) (title description : string)
    (sections : list AttributeSection) (sec : AttributeSection) :
  Infrastructure props = JS.Normal (Fragment title description sections) ->
  sec ∈ sections ->
  exists a, renderAttribute (derive props) a = JS.Normal sec.
Proof.
  intros (meta & _ & _ & _ & Hall)%Infrastructure_fragment_inv Hsec.
  apply list_elem_of_lookup in Hsec as (i & Hi).
  destruct (Forall2_lookup_r _ _ _ _ _ Hall Hi) as (a & _ & Ha). by exists a.
Qed.

Lemma interval_cases (startDate endDate : option string) :
  interval startDate endDate = ("1h", "h a") \/ interval startDate endDate = ("1d", "DD MMM").
Proof.
  unfold interval. destruct (truthy startDate && truthy endDate); [|by right].
  destruct (JS.le _ _); [by left | by right].
Qed.

End Sections.

(** X6.  The headings of a render all name the same period, one heading per
    section: "hour" when the interval is hourly, "day" when it is daily. *)
Theorem heading_period_matches_interval `{Host} `{Collaborators}
    (props : InfrastructureProps) (title description : string)
    (sections : list AttributeSection) :
  Infrastructure props = JS.Normal (Fragment title description sections) ->
  exists p,
    Forall (fun sec => omap headingPeriod (children sec) = [p]) sections
    /\ ((interval (startDate props) (endDate props) = ("1h", "h a") /\ p = "hour")
        \/ (interval (startDate props) (endDate props) = ("1d", "DD MMM") /\ p = "day")).
Proof.
  intros Hrender. exists (period (d_interval (derive props))). split.
  - apply Forall_forall. intros sec Hsec.
    destruct (Infrastructure_section _ _ _ _ _ Hrender Hsec) as (a & Ha).
    apply renderAttribute_children in Ha as (body & _ & ->).
    unfold diskIoBlock, descriptionBlock. rewrite !omap_app.
    rewrite omap_imap_None by done. by case_keys a.
  - cbn [derive d_interval].
    destruct (interval_cases (startDate props) (endDate props)) as [-> | ->];
      [left | right]; done.
Qed.

Lemma heading_period_matches_interval_witness :
  let C := withCatalog Examples.collaborators
             [ Fixtures.infraCategory [ Fixtures.cpuAttribute; Fixtures.diskIoAttribute ] ] in
  exists title description sections,
    @Infrastructure Fixtures.host C
      (Fixtures.props (Some "2023-06-14T00:00:00.000Z") (Some "2023-06-15T00:00:00.000Z"))
    = JS.Normal (Fragment title description sections)
    /\ length sections = 2%nat
    /\ Forall (fun sec => omap headingPeriod (children sec) = ["hour"]) sections.
Proof.
  intros C. do 3 eexists. split; [reflexivity |]. split; [reflexivity |].
  destruct (@heading_period_matches_interval Fixtures.host C
              (Fixtures.props (Some "2023-06-14T00:00:00.000Z")
                 (Some "2023-06-15T00:00:00.000Z")) _ _ _ eq_refl)
    as (p & Hall & [[_ ->] | [Hdaily _]]); [exact Hall | discriminate Hdaily].
Defined.

(** X7.  When the "infra" category lists metric keys only, the render
    completes with the name and description of the category as header and
    one section per attribute, in the order of the catalog, each carrying
    its attribute, with the anchor as id and the key as React key. *)
Theorem sections_follow_catalog `{Host} `{Collaborators}
    (props : InfrastructureProps) (meta : CategoryMeta) :
  categoryMeta = Some meta ->
  (forall a, a ∈ attributes meta -> key a ∈ metricKeys) ->
  exists sections,
    Infrastructure props
    = JS.Normal (Fragment (category_name meta) (category_description meta) sections)
    /\ map section sections = attributes meta
    /\ map section_id sections = map anchor (attributes meta)
    /\ map section_key sections = map key (attributes meta).
Proof.
  intros Hmeta Hkeys.
  destruct (Infrastructure_renders props meta Hmeta Hkeys) as (sections & Hrender & Hsections).
  exists sections. split; [done |]. split; [done |].
  apply Infrastructure_fragment_inv in Hrender as (meta' & Hmeta' & _ & _ & Hall).
  rewrite Hmeta in Hmeta'. injection Hmeta' as <-.
  clear Hsections Hkeys Hmeta. revert Hall.
  generalize (attributes meta) as attrs. intros attrs Hall.
  induction Hall as [|a sec attrs secs Ha _ IH]; [done |].
  apply renderAttribute_header in Ha as (Hid & Hkey & _).
  destruct IH as [IHid IHkey]. simpl. by rewrite Hid, Hkey, IHid, IHkey.
Qed.

Lemma sections_follow_catalog_witness :
  let C := withCatalog Examples.collaborators
             [ Fixtures.bandwidthCategory;
               Fixtures.infraCategory [ Fixtures.diskIoAttribute; Fixtures.cpuAttribute ] ] in
  exists sections,
    @Infrastructure Fixtures.host C (Fixtures.props None None)
    = JS.Normal (Fragment "Infrastructure"
                   "Usage statistics related to your server instance" sections)
    /\ map section_id sections = ["disk_io"; "cpu"].
Proof.
  intros C.
  destruct (@sections_follow_catalog Fixtures.host C (Fixtures.props None None)
              (Fixtures.infraCategory [ Fixtures.diskIoAttribute; Fixtures.cpuAttribute ])
              eq_refl) as (sections & Hrender & _ & Hids & _).
  { intros a Ha. apply list_elem_of_In in Ha. simpl in Ha.
    destruct Ha as [<- | [<- | []]]; apply (bool_decide_unpack _); reflexivity. }
  exists sections. split; [exact Hrender | exact Hids].
Defined.

(** X8.  The only exception a render raises is the TypeError of reading
    [isLoading] from an undefined [chartMeta] entry, and it raises it
    exactly when the "infra" category lists an attribute whose key is
    neither a metric key nor the name of a member of [Object.prototype]. *)
Theorem render_throws_iff `{Host} `{Collaborators} (props : InfrastructureProps)
    (e : JS.error) :
  Infrastructure props = JS.Throw e
  <-> e = JS.TypeError "Cannot read properties of undefined (reading 'isLoading')"
      /\ exists meta a,
           categoryMeta = Some meta /\ a ∈ attributes meta
           /\ (key a ∉ metricKeys) /\ (key a ∉ JS.object_prototype_keys).
Proof.
  split.
  - unfold Infrastructure. destruct categoryMeta as [meta|] eqn:Hmeta; [|done].
    destruct (JS.map_throwing (renderAttribute (derive props)) (attributes meta))
      as [rendered|e'] eqn:Hmap; [done |].
    intros [= ->]. apply map_throwing_throw_inv in Hmap as (a & Hin & Ha).
    unfold renderAttribute in Ha.
    destruct (chartBody (derive props) a) as [body|e'] eqn:Hbody; [done |].
    injection Ha as ->.
    destruct (decide (key a ∈ metricKeys)) as [Hmetric | Hmetric].
    { by rewrite chartBody_metric in Hbody. }
    rewrite chartBody_other in Hbody by done.
    destruct (decide (key a ∈ JS.object_prototype_keys)) as [Hproto | Hproto].
    { by rewrite bool_decide_eq_true_2 in Hbody. }
    rewrite bool_decide_eq_false_2 in Hbody by done. injection Hbody as <-.
    split; [done |]. by exists meta, a.
  - intros (-> & meta & a & Hmeta & Hin & Hmetric & Hproto).
    by eapply Infrastructure_throws.
Qed.

(** X9.  A section holds exactly one warning component when its key is a
    metric key, the one of that metric, and none otherwise. *)
Theorem one_warning_block_per_metric (d : Derived) (a : CategoryAttribute)
    (sec : AttributeSection) :
  renderAttribute d a = JS.Normal sec ->
  omap warningKind (children sec)
  = if bool_decide (key a ∈ metricKeys) then [key a] else [].
Proof.
  intros (body & _ & ->)%renderAttribute_children.
  unfold diskIoBlock, descriptionBlock. rewrite !omap_app.
  rewrite omap_imap_None by done.
  destruct (String.eqb_spec (key a) "disk_io_consumption") as [-> | Hio]; [done |].
  destruct (String.eqb_spec (key a) "max_cpu_usage") as [-> | Hcpu]; [done |].
  destruct (String.eqb_spec (key a) "ram_usage") as [-> | Hram]; [done |].
  rewrite bool_decide_eq_false_2; [done |].
  unfold metricKeys. rewrite !not_elem_of_cons. by repeat split; [..| apply not_elem_of_nil].
Qed.

Lemma one_warning_block_per_metric_witness :
  let d := @derive Fixtures.host Examples.collaborators (Fixtures.props None None) in
  exists sec,
    renderAttribute d Fixtures.ramAttribute = JS.Normal sec
    /\ omap warningKind (children sec) = ["ram_usage"].
Proof.
  intros d. destruct (renderAttribute d Fixtures.ramAttribute) as [sec|] eqn:Hsec.
  - exists sec. split; [done |].
    exact (one_warning_block_per_metric d Fixtures.ramAttribute sec Hsec).
  - discriminate Hsec.
Defined.

(** ** Warning components *)

Lemma find_some_split {A : Type} (p : A -> bool) (l : list A) (w : A) :
  List.find p l = Some w ->
  exists before after,
    l = (before ++ w :: after)%list /\ p w = true /\ forall x, x ∈ before -> p x = false.
Proof.
  induction l as [|x rest IH]; [done |]. simpl. destruct (p x) eqn:Hx.
  - intros [= ->]. exists [], rest. split; [done |]. split; [done |].
    intros y Hy. by apply elem_of_nil in Hy.
  - intros (before & after & -> & Hw & Hbefore)%IH.
    exists (x :: before), after. split; [done |]. split; [done |].
    intros y [-> | Hy]%elem_of_cons; [done | by apply Hbefore].
Qed.

Lemma diskIoBlock_elem (d : Derived) (el : Element) :
  el ∈ diskIoBlock d <->
    el = DiskIOBandwidthWarnings
           {| io_upgradeUrl := d_upgradeUrl d;
              io_isFreePlan := d_isFreePlan d;
              io_hasLatest := d_hasLatest d;
              io_currentBillingCycleSelected := d_currentBillingCycleSelected d;
              io_latestIoBudgetConsumption := d_latestIoBudgetConsumption d;
              io_highestIoBudgetConsumption := d_highestIoBudgetConsumption d |}
    \/ el = DiskIOBandwidth (throughputSentence (d_specs d))
    \/ el = Overview (overviewRows (d_computeInstance d) (d_specs d)).
Proof.
  unfold diskIoBlock. rewrite !elem_of_cons, elem_of_nil. tauto.
Qed.

(** X10.  A severity shown by the CPU or the memory warnings is the one of
    the first resource-warning record of this project: records of other
    projects are never used. *)
Theorem severity_from_own_project `{Host} `{Collaborators}
    (props : InfrastructureProps) (title description : string)
    (sections : list AttributeSection) (sec : AttributeSection)
    (isFree : bool) (url severity : string) :
  Infrastructure props = JS.Normal (Fragment title description sections) ->
  sec ∈ sections ->
  let own exhaustion :=
    exists before w after,
      useResourceWarningsQuery = Some (before ++ w :: after)%list
      /\ (forall x, x ∈ before -> project x <> projectRef props)
      /\ project w = projectRef props
      /\ exhaustion w = Some severity in
  (CPUWarnings isFree url (Some severity) ∈ children sec -> own cpu_exhaustion)
  /\ (RAMWarnings isFree url (Some severity) ∈ children sec -> own memory_and_swap_exhaustion).
Proof.
  intros Hrender Hsec own.
  destruct (Infrastructure_section _ _ _ _ _ Hrender Hsec) as (a & Ha).
  assert (forall exhaustion,
            d_warnings (derive props) ≫= exhaustion = Some severity -> own exhaustion)
    as Hown.
  { intros exhaustion Hsev. cbn [derive d_warnings] in Hsev.
    unfold projectResourceWarnings in Hsev.
    destruct useResourceWarningsQuery as [warnings|]; [|done].
    destruct (List.find _ warnings) as [w|] eqn:Hfind; [|done].
    apply find_some_split in Hfind as (before & after & -> & Hw & Hbefore).
    exists before, w, after. split; [done |]. split; [|split; [|done]].
    - intros x Hx. by apply String.eqb_neq, Hbefore.
    - by apply String.eqb_eq. }
  split; intros Hel; apply (children_elem _ _ _ _ Ha) in Hel;
    destruct Hel as [[_ Hel] | [[_ Hel] | [[_ Hel] | [Hel | [_ [body Hel]]]]]];
    try discriminate Hel;
    try (apply diskIoBlock_elem in Hel as [Hel | [Hel | Hel]]; discriminate Hel);
    try (apply descriptionBlock_elem in Hel
           as [Hel | [[_ Hel] | [[_ Hel] | (idx & text & _ & Hel)]]]; discriminate Hel);
    injection Hel as _ _ Hsev; by apply Hown.
Qed.

Lemma severity_from_own_project_witness :
  exists title description sections sec,
    @Infrastructure Fixtures.host
      (withCatalog Examples.collaborators
         [ Fixtures.infraCategory [ Fixtures.cpuAttribute ] ])
      (Fixtures.props None None)
    = JS.Normal (Fragment title description sections)
    /\ sec ∈ sections
    /\ CPUWarnings true "/project/ref/settings/billing/subscription" (Some "warning")
       ∈ children sec
    /\ exists before w after,
         Examples.warnings = (before ++ w :: after)%list
         /\ project w = "ref" /\ cpu_exhaustion w = Some "warning".
Proof.
  do 4 eexists. split; [reflexivity |]. split; [apply list_elem_of_here |].
  split; [apply list_elem_of_here |].
  destruct (@severity_from_own_project Fixtures.host
              (withCatalog Examples.collaborators
                 [ Fixtures.infraCategory [ Fixtures.cpuAttribute ] ])
              (Fixtures.props None None) _ _ _ _
              true "/project/ref/settings/billing/subscription" "warning"
              eq_refl (list_elem_of_here _ _)) as [Hcpu _].
  destruct (Hcpu (list_elem_of_here _ _)) as (before & w & after & Hquery & _ & Hproject & Hsev).
  exists before, w, after. injection Hquery as Hquery. done.
Defined.

(** X11.  Every warning component of a render receives the same upgrade
    URL, the one [getUpgradeUrl] gives for the project and its
    subscription. *)
Theorem upgradeUrl_everywhere `{Host} `{Collaborators}
    (props : InfrastructureProps) (title description : string)
    (sections : list AttributeSection) (sec : AttributeSection)
    (el : Element) (url : string) :
  Infrastructure props = JS.Normal (Fragment title description sections) ->
  sec ∈ sections -> el ∈ children sec -> upgradeUrlProp el = Some url ->
  url = getUpgradeUrl (projectRef props) (useProjectSubscriptionV2Query (projectRef props)).
Proof.
  intros Hrender Hsec Hel Hurl.
  destruct (Infrastructure_section _ _ _ _ _ Hrender Hsec) as (a & Ha).
  apply (children_elem _ _ _ _ Ha) in Hel.
  destruct Hel as [[_ Hel] | [[_ ->] | [[_ ->] | [Hel | [_ [body ->]]]]]];
    try (injection Hurl as <-; done); try discriminate Hurl.
  - apply diskIoBlock_elem in Hel as [-> | [-> | ->]];
      try discriminate Hurl. by injection Hurl as <-.
  - apply descriptionBlock_elem in Hel
      as [-> | [[_ ->] | [[_ ->] | (idx & text & _ & ->)]]]; discriminate Hurl.
Qed.

Lemma upgradeUrl_everywhere_witness :
  exists title description sections,
    @Infrastructure Fixtures.host
      (withCatalog Examples.collaborators
         [ Fixtures.infraCategory
             [ Fixtures.cpuAttribute; Fixtures.ramAttribute; Fixtures.diskIoAttribute ] ])
      (Fixtures.props None None)
    = JS.Normal (Fragment title description sections)
    /\ length sections = 3%nat
    /\ forall sec el url,
         sec ∈ sections -> el ∈ children sec -> upgradeUrlProp el = Some url ->
         url = "/project/ref/settings/billing/subscription".
Proof.
  do 3 eexists. split; [reflexivity |]. split; [reflexivity |].
  intros sec el url.
  exact (@upgradeUrl_everywhere Fixtures.host
           (withCatalog Examples.collaborators
              [ Fixtures.infraCategory
                  [ Fixtures.cpuAttribute; Fixtures.ramAttribute; Fixtures.diskIoAttribute ] ])
           (Fixtures.props None None) _ _ _ sec el url eq_refl).
Defined.

Lemma highest_NaN_or_nonneg `{Host} (ioBudgetData : option InfraMonitoringData) :
  highestIoBudgetConsumption ioBudgetData = JS.NaN
  \/ JS.le (JS.of_Z 0) (highestIoBudgetConsumption ioBudgetData) = true.
Proof.
  destruct (NaN_free_or_not
              (map (fun x => Number (field x "disk_io_consumption"))
                   (default [] (data_of ioBudgetData)))) as [Hfree | Hin].
  - right.
    pose proof (proj1 (Forall_map (fun x => Number (field x "disk_io_consumption"))
                                  (fun n => n <> JS.NaN) _) Hfree) as Hpoints.
    by destruct (highest_of_numbers ioBudgetData Hpoints) as [Hzero _].
  - left. apply list_elem_of_fmap in Hin as (x & Hx & Hin). by eapply highest_NaN.
Qed.

(** X15.  The disk IO warnings appear in the disk IO section only, and the
    props they receive are consistent: [hasLatest] is the one computed from
    [endDate], the latest consumption is 0 whenever [hasLatest] is false,
    and the highest consumption is NaN or at least 0, never negative. *)
Theorem diskIo_warning_props `{Host} `{Collaborators}
    (props : InfrastructureProps) (title description : string)
    (sections : list AttributeSection) (sec : AttributeSection)
    (p : DiskIOBandwidthWarningsProps) :
  Infrastructure props = JS.Normal (Fragment title description sections) ->
  sec ∈ sections -> DiskIOBandwidthWarnings p ∈ children sec ->
  section_key sec = "disk_io_consumption"
  /\ io_hasLatest p = hasLatest (endDate props)
  /\ io_currentBillingCycleSelected p = currentBillingCycleSelected props
  /\ (io_hasLatest p = false -> io_latestIoBudgetConsumption p = JS.of_Z 0)
  /\ (io_highestIoBudgetConsumption p = JS.NaN
      \/ JS.le (JS.of_Z 0) (io_highestIoBudgetConsumption p) = true).
Proof.
  intros Hrender Hsec Hel.
  destruct (Infrastructure_section _ _ _ _ _ Hrender Hsec) as (a & Ha).
  destruct (renderAttribute_header _ _ _ Ha) as (_ & Hkey & _).
  apply (children_elem _ _ _ _ Ha) in Hel.
  destruct Hel as [[Hio Hel] | [[_ Hel] | [[_ Hel] | [Hel | [_ [body Hel]]]]]];
    try discriminate Hel.
  - apply diskIoBlock_elem in Hel as [Hel | [Hel | Hel]]; try discriminate Hel.
    injection Hel as ->. cbn [io_hasLatest io_currentBillingCycleSelected
      io_latestIoBudgetConsumption io_highestIoBudgetConsumption derive d_hasLatest
      d_currentBillingCycleSelected d_latestIoBudgetConsumption
      d_highestIoBudgetConsumption].
    split; [congruence |]. split; [done |]. split; [done |]. split.
    + intros ->. rewrite latest_unfold. by destruct (last _).
    + apply highest_NaN_or_nonneg.
  - apply descriptionBlock_elem in Hel
      as [Hel | [[_ Hel] | [[_ Hel] | (idx & text & _ & Hel)]]]; discriminate Hel.
Qed.

Lemma diskIo_warning_props_witness :
  exists title description sections sec p,
    @Infrastructure Fixtures.host
      (withCatalog Examples.collaborators
         [ Fixtures.infraCategory [ Fixtures.diskIoAttribute ] ])
      (Fixtures.props None (Some "2023-06-14T00:00:00.000Z"))
    = JS.Normal (Fragment title description sections)
    /\ sec ∈ sections
    /\ DiskIOBandwidthWarnings p ∈ children sec
    /\ io_hasLatest p = false
    /\ io_latestIoBudgetConsumption p = JS.of_Z 0
    /\ JS.le (JS.of_Z 0) (io_highestIoBudgetConsumption p) = true.
Proof.
  do 5 eexists. split; [reflexivity |]. split; [apply list_elem_of_here |].
  split; [apply list_elem_of_here |].
  destruct (@diskIo_warning_props Fixtures.host
              (withCatalog Examples.collaborators
                 [ Fixtures.infraCategory [ Fixtures.diskIoAttribute ] ])
              (Fixtures.props None (Some "2023-06-14T00:00:00.000Z")) _ _ _ _ _
              eq_refl (list_elem_of_here _ _) (list_elem_of_here _ _))
    as (_ & Hlatest & _ & Hzero & [Hnan | Hnonneg]).
  - discriminate Hnan.
  - split; [exact Hlatest |]. split; [exact (Hzero Hlatest) | exact Hnonneg].
Defined.

(** ** Notes on the compute size *)

Lemma strict_eq_one (m : option JS.number) :
  JS.strict_eq m (Some (JS.of_Z 1)) = true <-> m = Some (JS.of_Z 1).
Proof.
  rewrite strict_eq_true. split; [by intros [? _] | intros ->]. split; [done | discriminate].
Qed.

(** X14.  The note on memory appears in the memory section only, with the
    memory size of the compute specs, and its caveat about the smallest
    instance is shown exactly when that size is 1 GB; the note on CPU cores
    appears in the CPU section only, with the core count of the specs. *)
Theorem compute_notes (d : Derived) (a : CategoryAttribute) (sec : AttributeSection) :
  renderAttribute d a = JS.Normal sec ->
  (forall memory caveat,
     MemoryNote memory caveat ∈ children sec
     <-> key a = "ram_usage" /\ memory = memory_gb (d_specs d)
         /\ (caveat = true <-> memory = Some (JS.of_Z 1)))
  /\ (forall cores,
        CpuCoresNote cores ∈ children sec
        <-> key a = "max_cpu_usage" /\ cores = cpu_cores (d_specs d)).
Proof.
  intros Ha. split.
  - intros memory caveat. rewrite (children_elem _ _ _ _ Ha). split.
    + intros [[_ Hel] | [[_ Hel] | [[_ Hel] | [Hel | [_ [body Hel]]]]]];
        try discriminate Hel.
      * apply diskIoBlock_elem in Hel as [Hel | [Hel | Hel]]; discriminate Hel.
      * apply descriptionBlock_elem in Hel
          as [Hel | [[Hram Hel] | [[_ Hel] | (idx & text & _ & Hel)]]];
          try discriminate Hel.
        injection Hel as -> ->. split; [done |]. split; [done |]. apply strict_eq_one.
    + intros (Hram & -> & Hcaveat). right. right. right. left.
      apply descriptionBlock_elem. right. left. split; [done |]. f_equal.
      destruct caveat, (JS.strict_eq (memory_gb (d_specs d)) (Some (JS.of_Z 1))) eqn:Hone;
        try done.
      * apply proj1 in Hcaveat. apply strict_eq_one in Hcaveat; [congruence | done].
      * apply strict_eq_one, Hcaveat in Hone. done.
  - intros cores. rewrite (children_elem _ _ _ _ Ha). split.
    + intros [[_ Hel] | [[_ Hel] | [[_ Hel] | [Hel | [_ [body Hel]]]]]];
        try discriminate Hel.
      * apply diskIoBlock_elem in Hel as [Hel | [Hel | Hel]]; discriminate Hel.
      * apply descriptionBlock_elem in Hel
          as [Hel | [[_ Hel] | [[Hcpu Hel] | (idx & text & _ & Hel)]]];
          try discriminate Hel.
        by injection Hel as ->.
    + intros (Hcpu & ->). right. right. right. left.
      apply descriptionBlock_elem. right. right. left. done.
Qed.

Lemma compute_notes_witness :
  let d := @derive Fixtures.host Examples.collaborators (Fixtures.props None None) in
  exists sec,
    renderAttribute d Fixtures.ramAttribute = JS.Normal sec
    /\ MemoryNote (Some (JS.of_Z 1)) true ∈ children sec
    /\ ~ CpuCoresNote (Some (JS.of_Z 2)) ∈ children sec.
Proof.
  intros d. destruct (renderAttribute d Fixtures.ramAttribute) as [sec|] eqn:Hsec.
  - exists sec. destruct (compute_notes d Fixtures.ramAttribute sec Hsec) as [Hmem Hcpu].
    split; [done |]. split.
    + apply Hmem. split; [done |]. split; [done |]. done.
    + intros [Hkey _]%Hcpu. discriminate Hkey.
  - discriminate Hsec.
Defined.

(** ** The catalog *)

Lemma find_first {A : Type} (p : A -> bool) (before after : list A) (x : A) :
  (forall y, y ∈ before -> p y = false) -> p x = true ->
  List.find p (before ++ x :: after) = Some x.
Proof.
  intros Hbefore Hx. induction before as [|y before IH]; simpl.
  - by rewrite Hx.
  - rewrite Hbefore by left. apply IH. intros z Hz. apply Hbefore. by right.
Qed.

(** X13.  Only the first category of key "infra" is rendered: the
    categories before and after it in the catalog do not change the
    result. *)
Theorem first_infra_category_wins `{Host} (C : Collaborators)
    (props : InfrastructureProps) (before after : list CategoryMeta) (infra : CategoryMeta) :
  (forall category, category ∈ before -> category_key category <> "infra") ->
  category_key infra = "infra" ->
  @Infrastructure _ (withCatalog C (before ++ infra :: after)) props
  = @Infrastructure _ (withCatalog C [infra]) props.
Proof.
  intros Hbefore Hinfra. unfold Infrastructure, categoryMeta.
  cbn [USAGE_CATEGORIES withCatalog].
  rewrite find_first; [| intros y Hy; by apply String.eqb_neq, Hbefore
                        | by apply String.eqb_eq].
  cbn [List.find]. by rewrite (proj2 (String.eqb_eq _ _) Hinfra).
Qed.

Lemma first_infra_category_wins_witness :
  @Infrastructure Fixtures.host Examples.collaborators (Fixtures.props None None)
  = @Infrastructure Fixtures.host
      (withCatalog Examples.collaborators
         [ Fixtures.infraCategory
             [ Fixtures.cpuAttribute; Fixtures.ramAttribute; Fixtures.diskIoAttribute ] ])
      (Fixtures.props None None).
Proof.
  apply (@first_infra_category_wins Fixtures.host Examples.collaborators
           (Fixtures.props None None) [Fixtures.bandwidthCategory]
           [Fixtures.infraCategory [Fixtures.swapAttribute]]
           (Fixtures.infraCategory
              [ Fixtures.cpuAttribute; Fixtures.ramAttribute; Fixtures.diskIoAttribute ])).
  - intros category Hin. apply list_elem_of_In in Hin. simpl in Hin.
    destruct Hin as [<- | []]. discriminate.
  - reflexivity.
Defined.

(** ** The disk IO section *)

Lemma disk_section_children (d : Derived) (a : CategoryAttribute) (sec : AttributeSection) :
  renderAttribute d a = JS.Normal sec -> key a = "disk_io_consumption" ->
  throughputSentences (children sec) = [throughputSentence (d_specs d)]
  /\ overviewTables (children sec) = [overviewRows (d_computeInstance d) (d_specs d)].
Proof.
  intros (body & _ & ->)%renderAttribute_children Hkey.
  unfold throughputSentences, overviewTables, descriptionBlock, diskIoBlock.
  rewrite !omap_app, !omap_imap_None by done. rewrite Hkey. split; reflexivity.
Qed.

(** C7.  In a completed render, the section of key [disk_io_consumption]
    holds one sentence under "Disk IO Bandwidth" and one overview table,
    both selected by comparing ([===]) the baseline and the maximum
    throughput of the resolved compute specs.  When they are equal the
    sentence is the fixed-throughput one and the table has no "Daily burst
    time limit" row; when they differ the sentence is the burst-then-revert
    one and the table has that row, whose value is the constant "30 mins". *)
Theorem burst_sentence_selection `{Host} `{Collaborators}
    (props : InfrastructureProps) (title description : string)
    (sections : list AttributeSection) (sec : AttributeSection) :
  Infrastructure props = JS.Normal (Fragment title description sections) ->
  sec ∈ sections -> section_key sec = "disk_io_consumption" ->
  let baseline := baseline_disk_io_mbs (resolvedSpecs props) in
  let max := max_disk_io_mbs (resolvedSpecs props) in
  let burstRow :=
    {| row_label := "Daily burst time limit"; row_value := PlainText "30 mins" |} in
  exists rows,
    overviewTables (children sec) = [rows]
    /\ (JS.strict_eq baseline max = true ->
        throughputSentences (children sec) = [FixedThroughput max]
        /\ forall row, row ∈ rows -> row_label row <> "Daily burst time limit")
    /\ (JS.strict_eq baseline max = false ->
        throughputSentences (children sec) = [BurstThenRevert max baseline]
        /\ burstRow ∈ rows
        /\ forall row, row ∈ rows -> row_label row = "Daily burst time limit" ->
                       row = burstRow).
Proof.
  intros Hrender Hsec Hkey baseline max burstRow.
  destruct (Infrastructure_section _ _ _ _ _ Hrender Hsec) as (a & Ha).
  destruct (renderAttribute_header _ _ _ Ha) as (_ & Hkeya & _). rewrite Hkey in Hkeya.
  destruct (disk_section_children _ _ _ Ha (eq_sym Hkeya)) as [-> ->].
  eexists. split; [reflexivity |].
  change (d_specs (derive props)) with (resolvedSpecs props).
  unfold throughputSentence, overviewRows. fold baseline max.
  rewrite (strict_eq_sym max baseline).
  split; intros ->; (split; [done |]).
  - intros row Hrow. apply list_elem_of_In in Hrow. simpl in Hrow.
    destruct Hrow as [<- | [<- | [<- | []]]]; discriminate.
  - split.
    + apply list_elem_of_In. simpl. tauto.
    + intros row Hrow Hlabel. apply list_elem_of_In in Hrow. simpl in Hrow.
      destruct Hrow as [<- | [<- | [<- | [<- | []]]]]; done.
Qed.

Lemma burst_sentence_selection_witness :
  let catalog := [ Fixtures.infraCategory [ Fixtures.cpuAttribute; Fixtures.diskIoAttribute ] ] in
  let rendered selected sentence rowCount :=
    exists title description sections sec rows,
      @Infrastructure Fixtures.host (Fixtures.collaborators catalog None selected)
        (Fixtures.props None None)
      = JS.Normal (Fragment title description sections)
      /\ sec ∈ sections /\ section_key sec = "disk_io_consumption"
      /\ throughputSentences (children sec) = [sentence]
      /\ overviewTables (children sec) = [rows] /\ length rows = rowCount in
  rendered [Fixtures.computeAddon "16XL" 2375 2375]
           (FixedThroughput (Some (JS.of_Z 2375))) 3%nat
  /\ rendered [] (BurstThenRevert (Some (JS.of_Z 2085)) (Some (JS.of_Z 87))) 4%nat.
Proof.
  intros catalog rendered. split.
  - do 4 eexists.
    destruct (@burst_sentence_selection Fixtures.host
                (Fixtures.collaborators catalog None [Fixtures.computeAddon "16XL" 2375 2375])
                (Fixtures.props None None) _ _ _ _ eq_refl
                (list_elem_of_further _ _ _ (list_elem_of_here _ _)) eq_refl)
      as (rows & Hrows & Hequal & _).
    destruct (Hequal eq_refl) as [Hsentence _].
    exists rows. split; [reflexivity |]. split; [apply list_elem_of_further, list_elem_of_here |].
    split; [reflexivity |]. split; [exact Hsentence |]. split; [exact Hrows |].
    injection Hrows as <-. reflexivity.
  - do 4 eexists.
    destruct (@burst_sentence_selection Fixtures.host
                (Fixtures.collaborators catalog None [])
                (Fixtures.props None None) _ _ _ _ eq_refl
                (list_elem_of_further _ _ _ (list_elem_of_here _ _)) eq_refl)
      as (rows & Hrows & _ & Hdiffer).
    destruct (Hdiffer eq_refl) as [Hsentence _].
    exists rows. split; [reflexivity |]. split; [apply list_elem_of_further, list_elem_of_here |].
    split; [reflexivity |]. split; [exact Hsentence |]. split; [exact Hrows |].
    injection Hrows as <-. reflexivity.
Defined.
